(** * Seta: a shallow embedding of [Seta/SetaCore.py]

    The interpreter reads a line-oriented program, keeps a namespace of
    typed variables, an accumulated-result register ([ams]), a program
    pointer ([ptr]) and a skip counter ([ifs]), and reports failures through
    [SetaRuntime.error], which prints a diagnostic and sets the run status.

    Python's own machinery ([eval], float and complex arithmetic, [int],
    [float]) is not part of the repository: the development is parametric
    in it (the classes [PyTypes] and [Python]).  Everything written in
    [SetaCore.py] is transcribed function by function, with the source
    names.  Diagnostics are recorded instead of printed; the terminal is a
    list of lines to read and a list of things written. *)

From Stdlib Require Import ZArith String Ascii List Bool Lia.
From Stdlib Require QArith.
From stdpp Require Import base gmap strings list pretty.
Import ListNotations.
Local Open Scope string_scope.
Local Open Scope Z_scope.

(** ** Python strings *)

Module PyStr.

(** [c.lower()] on an ASCII character. *)
Definition lower_char (c : ascii) : ascii :=
  if (Ascii.leb "A" c && Ascii.leb c "Z")%bool
  then ascii_of_N (N_of_ascii c + 32)
  else c.

(** [s.lower()], on ASCII letters.  The dispatcher only compares the
    result with ASCII mnemonics. *)
Fixpoint lower (s : string) : string :=
  match s with
  | EmptyString => EmptyString
  | String c s' => String (lower_char c) (lower s')
  end.

(** [s[:-1]]: the string without its last character. *)
Fixpoint drop_last (s : string) : string :=
  match s with
  | EmptyString => EmptyString
  | String c EmptyString => EmptyString
  | String c s' => String c (drop_last s')
  end.

(** [s.split(' ')]: split at every single space; never returns []. *)
Fixpoint split_go (cur : string) (s : string) : list string :=
  match s with
  | EmptyString => [String.rev cur]
  | String c s' =>
      if Ascii.eqb c " " then String.rev cur :: split_go EmptyString s'
      else split_go (String c cur) s'
  end.

Definition split (s : string) : list string := split_go EmptyString s.

(** [' '.join(l)]. *)
Fixpoint join (l : list string) : string :=
  match l with
  | [] => ""
  | [x] => x
  | x :: l' => x ++ " " ++ join l'
  end.

(** [s * n] for a string and an int: the empty string when [n <= 0]. *)
Fixpoint repeat (s : string) (n : nat) : string :=
  match n with
  | O => ""
  | S n' => s ++ repeat s n'
  end.

End PyStr.

(** ** [Seta.requireIdentifier] *)

Definition is_digit_or_hash (c : ascii) : bool :=
  existsb (Ascii.eqb c)
    ["0"; "1"; "2"; "3"; "4"; "5"; "6"; "7"; "8"; "9"; "#"]%char.

(** The test of the [for] loop body: a character that lets the loop
    [continue]. *)
Definition identifier_char (c : ascii) : bool :=
  (Ascii.leb "a" c && Ascii.leb c "z")
  || (Ascii.leb "A" c && Ascii.leb c "Z")
  || existsb (Ascii.eqb c)
       ["0"; "1"; "2"; "3"; "4"; "5"; "6"; "7"; "8"; "9"; "_"; "#"]%char.

Fixpoint all_chars (p : ascii -> bool) (s : string) : bool :=
  match s with
  | EmptyString => true
  | String c s' => p c && all_chars p s'
  end.

Definition requireIdentifier (i : string) : bool :=
  match i with
  | EmptyString => false                         (* if not i: return False *)
  | String c0 _ =>
      if negb (all_chars identifier_char i) then false
      else if is_digit_or_hash c0 then false     (* i[0] in ('0', ..., '#') *)
      else true
  end.

(** The identifier grammar in the spec's words, to compare with
    [requireIdentifier]: not empty, only ASCII letters, digits, underscore
    and [#], the first character neither a digit nor [#]. *)
Definition ascii_letter (c : ascii) : bool :=
  let n := N_of_ascii c in
  ((65 <=? n) && (n <=? 90) || (97 <=? n) && (n <=? 122))%N.

Definition ascii_digit (c : ascii) : bool :=
  let n := N_of_ascii c in ((48 <=? n) && (n <=? 57))%N.

Definition grammar_char (c : ascii) : bool :=
  ascii_letter c || ascii_digit c || Ascii.eqb c "_" || Ascii.eqb c "#".

Definition grammar_identifier (i : string) : bool :=
  match i with
  | EmptyString => false
  | String c _ =>
      all_chars grammar_char i && negb (ascii_digit c || Ascii.eqb c "#")
  end.


(** ** Python values and the interpreter, parametric in Python's numerics *)

(** Python's [float] and [complex] objects are kept opaque. *)
Class PyTypes := {
  pyfloat : Type;
  pycomplex : Type;
}.

Section Values.
Context {T : PyTypes}.

(** The objects a Seta variable, the [ams] register or an operand can
    hold.  [bool] is a subclass of [int] and is identified with it. *)
Inductive value :=
| VInt (z : Z)
| VFloat (f : pyfloat)
| VComplex (c : pycomplex)
| VStr (s : string)
| VNone.

(** What a Python call does: return, raise [TypeError] (the one exception
    the dispatcher catches), or raise something else ([ZeroDivisionError],
    [OverflowError], [ValueError], [EOFError]). *)
Inductive pyres :=
| Returns (v : value)
| RaisesTypeError
| Raises.

(** The outcome of [eval(token)]. *)
Inductive evaluated :=
| EvalRaises                    (* an [Exception] was raised *)
| EvalValue (v : value)
| EvalObject.                   (* some other object: a list, a module... *)

Inductive binop := Add | Sub | Mul | TrueDiv | Pow.

(** The numbers among the values: what arithmetic on numbers returns. *)
Inductive number :=
| NInt (z : Z)
| NFloat (f : pyfloat)
| NComplex (c : pycomplex).

Definition of_number (n : number) : value :=
  match n with
  | NInt z => VInt z
  | NFloat f => VFloat f
  | NComplex c => VComplex c
  end.

End Values.

(** Python's side of the interpreter, assumed pure:
    - [py_eval]: [eval] on one token, in the scope of [SetaCore];
    - [float_arith]: an operator of [binop] on two numbers that are not
      both handled exactly below (a float or complex operand, [int/int],
      a negative integer exponent); [None] when it raises
      ([ZeroDivisionError], [OverflowError]);
    - [float_eqb], [float_ltb], [float_leb]: [==], [<], [<=] on two
      numbers, at least one of them not an [int];
    - [py_int], [py_float]: the constructors [int(x)], [float(x)];
    - [float_of_string]: [float(s)], [None] for [ValueError];
    - [float_gt_version v]: [v > Seta.version], with [Seta.version = 1.0]. *)
Class Python {T : PyTypes} := {
  py_eval : string -> evaluated;
  float_arith : binop -> value -> value -> option number;
  float_eqb : value -> value -> bool;
  float_ltb : value -> value -> bool;
  float_leb : value -> value -> bool;
  py_int : value -> pyres;
  py_float : value -> pyres;
  float_of_string : string -> option pyfloat;
  float_gt_version : pyfloat -> bool;
}.

Section Runtime.
Context {T : PyTypes} {P : Python}.

Definition is_number (v : value) : bool :=
  match v with VInt _ | VFloat _ | VComplex _ => true | _ => false end.

Definition is_real (v : value) : bool :=
  match v with VInt _ | VFloat _ => true | _ => false end.

(** [isinstance(v, str)] *)
Definition is_str (v : value) : bool :=
  match v with VStr _ => true | _ => false end.

(** *** The [operator] module ([sys_operator] in the source) *)

Definition numeric (op : binop) (a b : value) : pyres :=
  match float_arith op a b with
  | Some n => Returns (of_number n)
  | None => Raises
  end.

Definition operator_add (a b : value) : pyres :=
  match a, b with
  | VInt x, VInt y => Returns (VInt (x + y))
  | VStr x, VStr y => Returns (VStr (x ++ y))
  | _, _ => if is_number a && is_number b then numeric Add a b
            else RaisesTypeError
  end.

Definition operator_sub (a b : value) : pyres :=
  match a, b with
  | VInt x, VInt y => Returns (VInt (x - y))
  | _, _ => if is_number a && is_number b then numeric Sub a b
            else RaisesTypeError
  end.

(** Sequence repetition has no size limit here. *)
Definition operator_mul (a b : value) : pyres :=
  match a, b with
  | VInt x, VInt y => Returns (VInt (x * y))
  | VStr s, VInt n | VInt n, VStr s => Returns (VStr (PyStr.repeat s (Z.to_nat n)))
  | _, _ => if is_number a && is_number b then numeric Mul a b
            else RaisesTypeError
  end.

Definition operator_truediv (a b : value) : pyres :=
  if is_number a && is_number b then numeric TrueDiv a b
  else RaisesTypeError.

Definition operator_pow (a b : value) : pyres :=
  match a, b with
  | VInt x, VInt y =>
      if 0 <=? y then Returns (VInt (x ^ y)) else numeric Pow a b
  | _, _ => if is_number a && is_number b then numeric Pow a b
            else RaisesTypeError
  end.

(** [a == b]; it never raises. *)
Definition py_eq (a b : value) : bool :=
  match a, b with
  | VInt x, VInt y => x =? y
  | VStr x, VStr y => String.eqb x y
  | VNone, VNone => true
  | _, _ => is_number a && is_number b && float_eqb a b
  end.

(** [a < b] and [a <= b]; [None] stands for [TypeError]. *)
Definition py_lt (a b : value) : option bool :=
  match a, b with
  | VInt x, VInt y => Some (x <? y)
  | VStr x, VStr y => Some (String.ltb x y)
  | _, _ => if is_real a && is_real b then Some (float_ltb a b) else None
  end.

Definition py_le (a b : value) : option bool :=
  match a, b with
  | VInt x, VInt y => Some (x <=? y)
  | VStr x, VStr y => Some (String.leb x y)
  | _, _ => if is_real a && is_real b then Some (float_leb a b) else None
  end.

(** *** [seta_operator]

    Modelled from the spec: the module [seta_operator], imported by
    [SetaCore.py] and used by [com_if], is not among the sources.  The
    spec (4.3) says a comparison "compares raw resolved values directly"
    and that incomparable operands fail; [None] is that failure. *)
Definition seta_operator_above (a b : value) : option bool := py_lt b a.
Definition seta_operator_below (a b : value) : option bool := py_lt a b.
Definition seta_operator_equal (a b : value) : option bool := Some (py_eq a b).
Definition seta_operator_notabove (a b : value) : option bool := py_le a b.
Definition seta_operator_notbelow (a b : value) : option bool := py_le b a.
Definition seta_operator_notequal (a b : value) : option bool :=
  Some (negb (py_eq a b)).

(** *** [Seta.requireInt], [Seta.requireReal] *)

Definition requireInt (i : string) : option value :=
  match py_eval i with
  | EvalValue (VInt z) => Some (VInt z)
  | _ => None
  end.

Definition requireReal (r : string) : option value :=
  match py_eval r with
  | EvalValue (VInt z) => Some (VInt z)
  | EvalValue (VFloat f) => Some (VFloat f)
  | _ => None
  end.

(** *** Data model *)

Inductive vtype := VARIABLE_NUMERIC | VARIABLE_STRING_CONST.

(** [class Variable]; a fresh one has value [None]. *)
Record SetaVariable := {
  var_name : string;
  var_type : vtype;
  var_value : value;
}.

Definition Variable_new (name : string) (vType : vtype) : SetaVariable :=
  {| var_name := name; var_type := vType; var_value := VNone |}.

(** One instruction record: the mnemonic and its arguments. *)
Definition instr : Type := string * list string.

(** A diagnostic handed to [SetaRuntime.error]: its class name and the
    line and instruction it is reported at (the message text and the file
    name are not recorded). *)
Record SetaException := {
  clsname : string;
  lineno : Z;
  code : option instr;
}.

Inductive builtin := display | ftc | wrap | nInput | breakpoint.

(** What a package pool or the program pointer can refer to. *)
Inductive object :=
| NullPointerTraceback          (* the bound method of the runtime *)
| BuiltinMethod (b : builtin)   (* a bound method of [BuiltinsPackage] *)
| Plain (v : value).            (* an object that is not callable *)

Definition callable (o : object) : bool :=
  match o with Plain _ => false | _ => true end.

(** What [StandardIO.output] has written, apart from diagnostics. *)
Inductive output :=
| OutValue (v : value)
| OutText (s : string)
| OutBreakpoint.

(** [class SetaStringOperationCode]: the lines and the read pointer. *)
Record SetaStringOperationCode := {
  text : list string;
  pointer : nat;
}.

Definition RUNTIME_STATUS_RUNNING : Z := 0.
Definition RUNTIME_STATUS_PREPARING : Z := 1.
Definition RUNTIME_STATUS_QUITED : Z := 2.
Definition RUNTIME_STATUS_ERROR : Z := 3.

(** [class SetaRuntime].  [errors] lists the diagnostics printed by
    [error], oldest first; [stdout] the other output; [stdin] the lines
    still to be read from the terminal. *)
Record SetaRuntime := {
  status : Z;
  namespace : gmap string SetaVariable;
  current_lineno : Z;
  current_code : option instr;
  support : SetaStringOperationCode;
  ams : value;
  ifs : Z;
  ptr : option object;
  packages : gmap string (gmap string object);
  errors : list SetaException;
  stdout : list output;
  stdin : list string;
}.

Definition set_status (x : Z) (rt : SetaRuntime) : SetaRuntime :=
  {| status := x; namespace := namespace rt;
     current_lineno := current_lineno rt; current_code := current_code rt;
     support := support rt; ams := ams rt; ifs := ifs rt; ptr := ptr rt;
     packages := packages rt; errors := errors rt; stdout := stdout rt;
     stdin := stdin rt |}.

Definition set_namespace (x : gmap string SetaVariable) (rt : SetaRuntime)
  : SetaRuntime :=
  {| status := status rt; namespace := x;
     current_lineno := current_lineno rt; current_code := current_code rt;
     support := support rt; ams := ams rt; ifs := ifs rt; ptr := ptr rt;
     packages := packages rt; errors := errors rt; stdout := stdout rt;
     stdin := stdin rt |}.

Definition set_current (l : Z) (c : option instr)
  (sup : SetaStringOperationCode) (rt : SetaRuntime) : SetaRuntime :=
  {| status := status rt; namespace := namespace rt;
     current_lineno := l; current_code := c;
     support := sup; ams := ams rt; ifs := ifs rt; ptr := ptr rt;
     packages := packages rt; errors := errors rt; stdout := stdout rt;
     stdin := stdin rt |}.

Definition set_ams (x : value) (rt : SetaRuntime) : SetaRuntime :=
  {| status := status rt; namespace := namespace rt;
     current_lineno := current_lineno rt; current_code := current_code rt;
     support := support rt; ams := x; ifs := ifs rt; ptr := ptr rt;
     packages := packages rt; errors := errors rt; stdout := stdout rt;
     stdin := stdin rt |}.

Definition set_ifs (x : Z) (rt : SetaRuntime) : SetaRuntime :=
  {| status := status rt; namespace := namespace rt;
     current_lineno := current_lineno rt; current_code := current_code rt;
     support := support rt; ams := ams rt; ifs := x; ptr := ptr rt;
     packages := packages rt; errors := errors rt; stdout := stdout rt;
     stdin := stdin rt |}.

Definition set_ptr (x : option object) (rt : SetaRuntime) : SetaRuntime :=
  {| status := status rt; namespace := namespace rt;
     current_lineno := current_lineno rt; current_code := current_code rt;
     support := support rt; ams := ams rt; ifs := ifs rt; ptr := x;
     packages := packages rt; errors := errors rt; stdout := stdout rt;
     stdin := stdin rt |}.

Definition set_errors (x : list SetaException) (rt : SetaRuntime)
  : SetaRuntime :=
  {| status := status rt; namespace := namespace rt;
     current_lineno := current_lineno rt; current_code := current_code rt;
     support := support rt; ams := ams rt; ifs := ifs rt; ptr := ptr rt;
     packages := packages rt; errors := x; stdout := stdout rt;
     stdin := stdin rt |}.

Definition set_stdio (o : list output) (i : list string) (rt : SetaRuntime)
  : SetaRuntime :=
  {| status := status rt; namespace := namespace rt;
     current_lineno := current_lineno rt; current_code := current_code rt;
     support := support rt; ams := ams rt; ifs := ifs rt; ptr := ptr rt;
     packages := packages rt; errors := errors rt; stdout := o;
     stdin := i |}.

(** *** [SetaRuntime.error] *)

(** The diagnostic every handler builds: [lineno] and [code] are read
    from [self.current]. *)
Definition exception (cls : string) (rt : SetaRuntime) : SetaException :=
  {| clsname := cls; lineno := current_lineno rt; code := current_code rt |}.

(** Print the diagnostic, set the status; nothing is unwound. *)
Definition error (exc : SetaException) (rt : SetaRuntime) : SetaRuntime :=
  set_status RUNTIME_STATUS_ERROR (set_errors (errors rt ++ [exc]) rt).

Definition report (cls : string) (rt : SetaRuntime) : SetaRuntime :=
  error (exception cls rt) rt.

(** *** [Variable.set] *)

Definition with_value (var : SetaVariable) (v : value) : SetaVariable :=
  {| var_name := var_name var; var_type := var_type var; var_value := v |}.

Definition Variable_set (var : SetaVariable) (v : value) (rt : SetaRuntime)
  : bool * SetaVariable * SetaRuntime :=
  if is_str v then
    match var_type var with
    | VARIABLE_STRING_CONST => (true, with_value var v, rt)
    | VARIABLE_NUMERIC => (false, var, report "ValueException" rt)
    end
  else
    match var_type var with
    | VARIABLE_NUMERIC => (true, with_value var v, rt)
    | VARIABLE_STRING_CONST => (false, var, report "ValueException" rt)
    end.

(** *** [SetaRuntime.Operation]

    The helpers take two [Variable]s; they return [None] after a
    diagnostic.  [com_calc] does not go through them. *)

Definition var_numeric (var : SetaVariable) : bool :=
  match var_type var with VARIABLE_NUMERIC => true | _ => false end.

Definition Operation_add (arg1 arg2 : SetaVariable) (rt : SetaRuntime)
  : pyres * SetaRuntime :=
  if negb (var_numeric arg1) then (Returns VNone, report "TypeException" rt)
  else if negb (var_numeric arg2)
  then (Returns VNone, report "TypeException" rt)
  else (operator_add (var_value arg1) (var_value arg2), rt).

Definition Operation_sub (arg1 arg2 : SetaVariable) (rt : SetaRuntime)
  : pyres * SetaRuntime :=
  if negb (var_numeric arg1) then (Returns VNone, report "TypeException" rt)
  else if negb (var_numeric arg2)
  then (Returns VNone, report "TypeException" rt)
  else (operator_sub (var_value arg1) (var_value arg2), rt).

Definition Operation_mul (arg1 arg2 : SetaVariable) (rt : SetaRuntime)
  : pyres * SetaRuntime :=
  if negb (var_numeric arg1) then (Returns VNone, report "TypeException" rt)
  else if negb (var_numeric arg2)
  then (Returns VNone, report "TypeException" rt)
  else (operator_mul (var_value arg1) (var_value arg2), rt).

Definition Operation_div (arg1 arg2 : SetaVariable) (rt : SetaRuntime)
  : pyres * SetaRuntime :=
  if negb (var_numeric arg1) then (Returns VNone, report "TypeException" rt)
  else if negb (var_numeric arg2)
  then (Returns VNone, report "TypeException" rt)
  else if py_eq (var_value arg2) (VInt 0)
  then (Returns VNone, report "MathException" rt)
  else (operator_truediv (var_value arg1) (var_value arg2), rt).

Definition Operation_power (arg1 arg2 : SetaVariable) (rt : SetaRuntime)
  : pyres * SetaRuntime :=
  if negb (var_numeric arg1) then (Returns VNone, report "TypeException" rt)
  else if negb (var_numeric arg2)
  then (Returns VNone, report "TypeException" rt)
  else if py_eq (var_value arg1) (var_value arg2)
          && py_eq (var_value arg2) (VInt 0)
  then (Returns VNone, report "MathException" rt)
  else (operator_pow (var_value arg1) (var_value arg2), rt).

(** *** Namespace and packages *)

Definition NamespaceSearch (name : string) (rt : SetaRuntime)
  : option SetaVariable :=
  namespace rt !! name.

Definition NamespaceInput (var : SetaVariable) (rt : SetaRuntime)
  : SetaRuntime :=
  set_namespace (<[var_name var := var]> (namespace rt)) rt.

(** A [Variable] is a mutable object: after [var = NamespaceSearch(key)]
    a [var.set] is seen through the namespace entry [key]. *)
Definition store (key : string) (var : SetaVariable) (rt : SetaRuntime)
  : SetaRuntime :=
  set_namespace (<[key := var]> (namespace rt)) rt.

Definition PackageSearch (name : string) (rt : SetaRuntime)
  : option (gmap string object) :=
  packages rt !! name.

Definition ObjectSearch (key : string) (pool : gmap string object)
  : option object :=
  pool !! key.

(** [BuiltinsPackage.__init__] *)
Definition BuiltinsPackage : gmap string object :=
  <["breakpoint" := BuiltinMethod breakpoint]>
  (<["nInput" := BuiltinMethod nInput]>
  (<["wrap" := BuiltinMethod wrap]>
  (<["ftc" := BuiltinMethod ftc]>
  (<["display" := BuiltinMethod display]> ∅)))).

(** *** [SetaStringOperationCode] *)

Definition newline : string := String "010"%char EmptyString.
Definition newline_cr : string :=
  String "010"%char (String "013"%char EmptyString).

(** A line as [readlines] returns it. *)
Definition line (s : string) : string := s ++ newline.

Definition bump (sup : SetaStringOperationCode) : SetaStringOperationCode :=
  {| text := text sup; pointer := S (pointer sup) |}.

(** The property [precheck]: the result code and the stream after the
    read ([IndexError] leaves the pointer where it was). *)
Definition precheck (sup : SetaStringOperationCode)
  : Z * SetaStringOperationCode :=
  match text sup !! pointer sup with
  | None => (5, sup)
  | Some line1 =>
      if String.eqb line1 "" then (5, bump sup)
      else
        match PyStr.split (PyStr.drop_last line1) with
        | [flag; version] =>
            if negb (String.eqb flag "SETA-SOC") then (1, bump sup)
            else match float_of_string version with
                 | None => (2, bump sup)
                 | Some v => if float_gt_version v then (3, bump sup)
                             else (0, bump sup)
                 end
        | _ => (4, bump sup)
        end
  end.

(** The property [instruction]; [None] is [EOF]. *)
Definition instruction (sup : SetaStringOperationCode)
  : option instr * SetaStringOperationCode :=
  match text sup !! pointer sup with
  | None => (None, sup)
  | Some l =>
      if String.eqb l "" then (None, bump sup)
      else if String.eqb l newline || String.eqb l newline_cr
      then (Some ("emp", []), bump sup)
      else
        match PyStr.split (PyStr.drop_last l) with
        | [] => (None, bump sup)              (* split never returns [] *)
        | [m] => (Some (m, []), bump sup)
        | m :: args => (Some (m, args), bump sup)
        end
  end.

(** [SetaStringOperationCode.__init__] on the lines of the stream: a
    failed precheck is reported once, at line 1; [stream.readline()]
    after [readlines()] is the empty string, hence no code record. *)
Definition SetaStringOperationCode_init (lines : list string)
  (rt : SetaRuntime) : SetaStringOperationCode * SetaRuntime :=
  let '(res, sup) := precheck {| text := lines; pointer := 0 |} in
  if res =? 0 then (sup, rt)
  else (sup, error {| clsname := "PrecheckException"; lineno := 1;
                      code := None |} rt).

(** [SetaRuntime.__init__]; [support] is [None] there until [setSupport],
    an empty stream here.  [input] is what the terminal will supply. *)
Definition SetaRuntime_init (input : list string) : SetaRuntime :=
  {| status := RUNTIME_STATUS_RUNNING;
     namespace := ∅;
     current_lineno := 0;
     current_code := None;
     support := {| text := []; pointer := 0 |};
     ams := VInt 0;
     ifs := 0;
     ptr := Some NullPointerTraceback;
     packages := {[ "builtins" := BuiltinsPackage ]};
     errors := [];
     stdout := [];
     stdin := input |}.

Definition setSupport (sup : SetaStringOperationCode) (rt : SetaRuntime)
  : SetaRuntime :=
  let '(c, sup') := instruction sup in
  set_current 2 c sup' rt.

(** *** Handlers

    A handler is called as [self.com_x( *args)]: a list of the wrong
    length raises [TypeError] before the body runs; a [TypeError] raised
    inside the body reaches the same [except] clause of [run]. *)
Inductive outcome :=
| Done (rt : SetaRuntime)
| RaisedTypeError (rt : SetaRuntime)
| Raised (rt : SetaRuntime).      (* an exception [run] does not catch *)

Definition com_endif (args : list string) (rt : SetaRuntime) : outcome :=
  match args with
  | [] => Done (set_ifs (if ifs rt =? 0 then 0 else ifs rt - 1) rt)
  | _ => RaisedTypeError rt
  end.

Definition com_emp (args : list string) (rt : SetaRuntime) : outcome :=
  match args with
  | [] => Done rt
  | _ => RaisedTypeError rt
  end.

(** Operand resolution, written twice in [com_if] and twice in
    [com_calc]: the literal, then [@AMS], then the namespace; [None] is
    the undeclared name.  A declared variable yields its value, which is
    [VNone] when it was never set. *)
Definition resolve (arg : string) (rt : SetaRuntime) : option value :=
  let var1 := requireReal arg in
  let var1 := if String.eqb arg "@AMS"
              then match ams rt with VNone => None | v => Some v end
              else var1 in
  match var1 with
  | Some v => Some v
  | None => var_value <$> NamespaceSearch arg rt
  end.

Definition comparison (cmp : string)
  : option (value -> value -> option bool) :=
  if String.eqb cmp ">" then Some seta_operator_above
  else if String.eqb cmp "<" then Some seta_operator_below
  else if String.eqb cmp "=" then Some seta_operator_equal
  else if String.eqb cmp "<=" then Some seta_operator_notabove
  else if String.eqb cmp ">=" then Some seta_operator_notbelow
  else if String.eqb cmp "!=" then Some seta_operator_notequal
  else None.

Definition com_if (args : list string) (rt : SetaRuntime) : outcome :=
  match args with
  | [arg1; cmp; arg2] =>
      match resolve arg1 rt with
      | None => Done (report "VariableException" rt)
      | Some var1 =>
          match resolve arg2 rt with
          | None => Done (report "VariableException" rt)
          | Some var2 =>
              match comparison cmp with
              | None => Done (report "OperatorException" rt)
              | Some oper =>
                  match oper var1 var2 with
                  | None => Done (report "ComparisonException" rt)
                  | Some res =>
                      if negb res then Done (set_ifs 1 rt) else Done rt
                  end
              end
          end
      end
  | _ => RaisedTypeError rt
  end.

Definition OPERATION_DIV : string := "div".
Definition OPERATION_POWER : string := "power".

Definition operation_table (operation : string)
  : option (value -> value -> pyres) :=
  if String.eqb operation "add" then Some operator_add
  else if String.eqb operation "sub" then Some operator_sub
  else if String.eqb operation "mul" then Some operator_mul
  else if String.eqb operation OPERATION_DIV then Some operator_truediv
  else if String.eqb operation OPERATION_POWER then Some operator_pow
  else None.

Definition com_calc (args : list string) (rt : SetaRuntime) : outcome :=
  match args with
  | [operation; arg1; arg2; res] =>
      match operation_table operation with
      | None => Done (report "ArgumentException" rt)
      | Some oper =>
      match resolve arg1 rt with
      | None => Done (report "VariableException" rt)
      | Some var1 =>
      match resolve arg2 rt with
      | None => Done (report "VariableException" rt)
      | Some var2 =>
      if String.eqb operation OPERATION_DIV && py_eq var2 (VInt 0)
      then Done (report "MathException" rt)
      else if String.eqb operation OPERATION_POWER
              && (py_eq var1 var2 && py_eq var2 (VInt 0))
      then Done (report "MathException" rt)
      else if negb (requireIdentifier res)
      then Done (report "ArgumentException" rt)
      else
        match oper var1 var2 with
        | RaisesTypeError => RaisedTypeError rt
        | Raises => Raised rt
        | Returns r =>
            let rt := set_ams r rt in
            let '(var, rt) :=
              match NamespaceSearch res rt with
              | None =>
                  let var := Variable_new res VARIABLE_NUMERIC in
                  (var, NamespaceInput var rt)
              | Some var => (var, rt)
              end in
            let '(_, var, rt) := Variable_set var r rt in
            Done (store res var rt)
        end
      end end end
  | _ => RaisedTypeError rt
  end.

Definition com_set (args : list string) (rt : SetaRuntime) : outcome :=
  match args with
  | vType :: name :: value :: texts =>
      if negb (requireIdentifier name)
      then Done (report "ArgumentException" rt)
      else if String.eqb vType "numeric" then
        match requireReal value with
        | None => Done (report "TypeException" rt)
        | Some v =>
            match texts with
            | _ :: _ => Done (report "ArgumentException" rt)
            | [] =>
                let var := Variable_new name VARIABLE_NUMERIC in
                let '(_, var, rt) := Variable_set var v rt in
                Done (NamespaceInput var rt)
            end
        end
      else if String.eqb vType "cstring" then
        let var := Variable_new name VARIABLE_STRING_CONST in
        let '(_, var, rt) :=
          Variable_set var (VStr (PyStr.join (value :: texts))) rt in
        Done (NamespaceInput var rt)
      else Done (report "ArgumentException" rt)
  | _ => RaisedTypeError rt
  end.

Definition com_load (args : list string) (rt : SetaRuntime) : outcome :=
  let load (package identifier : string) :=
    match PackageSearch package rt with
    | None => Done (report "PackageException" rt)
    | Some pack =>
        match ObjectSearch identifier pack with
        | None => Done (report "PackageException" rt)
        | Some obj => Done (set_ptr (Some obj) rt)
        end
    end in
  match args with
  | [package] => load "builtins" package     (* identifier is None *)
  | [package; identifier] => load package identifier
  | _ => RaisedTypeError rt
  end.

(** *** [BuiltinsPackage] and [com_call] *)

Definition put (o : output) (rt : SetaRuntime) : SetaRuntime :=
  set_stdio (stdout rt ++ [o]) (stdin rt) rt.

Definition builtin_display (args : list string) (rt : SetaRuntime)
  : outcome :=
  match args with
  | [var] =>
      if negb (requireIdentifier var)
      then Done (report "ArgumentException" rt)
      else match NamespaceSearch var rt with
           | None => Done (report "ArgumentException" rt)
           | Some v => Done (put (OutValue (var_value v)) rt)
           end
  | _ => RaisedTypeError rt
  end.

Definition builtin_wrap (args : list string) (rt : SetaRuntime) : outcome :=
  let body (lines : string) :=
    match requireInt lines with
    | Some (VInt n) =>
        if n <=? 0 then Done (report "ArgumentException" rt)
        else Done (put (OutText (PyStr.repeat newline (Z.to_nat n))) rt)
    | _ => Done (report "ArgumentException" rt)
    end in
  match args with
  | [] => body "1"
  | [lines] => body lines
  | _ => RaisedTypeError rt
  end.

Definition builtin_ftc (args : list string) (rt : SetaRuntime) : outcome :=
  match args with
  | [arg; tar] =>
      if negb (requireIdentifier arg)
      then Done (report "ArgumentException" rt)
      else match NamespaceSearch arg rt with
      | None => Done (report "VariableException" rt)
      | Some var =>
          match var_type var with
          | VARIABLE_STRING_CONST => Done (report "TypeException" rt)
          | VARIABLE_NUMERIC =>
              let func :=
                if String.eqb tar "integer" then Some py_int
                else if String.eqb tar "float" then Some py_float
                else None in
              match func with
              | None => Done (report "ArgumentException" rt)
              | Some func =>
                  match func (var_value var) with
                  | RaisesTypeError => RaisedTypeError rt
                  | Raises => Raised rt
                  | Returns v =>
                      let '(_, var, rt) := Variable_set var v rt in
                      Done (store arg var rt)
                  end
              end
          end
      end
  | _ => RaisedTypeError rt
  end.

(** The [while True] loop of [nInput] over the lines the terminal still
    holds: [None] when they run out ([input] raises [EOFError]). *)
Fixpoint nInput_loop (msg : string) (inp : list string) (out : list output)
  : option value * list string * list output :=
  match inp with
  | [] => (None, [], out)
  | i :: inp' =>
      match requireReal i with
      | None => nInput_loop msg inp' (out ++ [OutText msg])
      | Some num => (Some num, inp', out)
      end
  end.

Definition builtin_nInput (args : list string) (rt : SetaRuntime)
  : outcome :=
  match args with
  | arg :: msg =>
      if negb (requireIdentifier arg)
      then Done (report "ArgumentException" rt)
      else match NamespaceSearch arg rt with
      | None => Done (report "VariableException" rt)
      | Some var =>
          match var_type var with
          | VARIABLE_STRING_CONST => Done (report "TypeException" rt)
          | VARIABLE_NUMERIC =>
              let msg :=
                match msg with
                | [] => "Input requires to be numeric, please enter again:"
                | _ => PyStr.join msg
                end in
              let '(num, inp, out) :=
                nInput_loop msg (stdin rt) (stdout rt) in
              let rt := set_stdio out inp rt in
              match num with
              | None => Raised rt
              | Some num =>
                  let '(_, var, rt) := Variable_set var num rt in
                  Done (store arg var rt)
              end
          end
      end
  | [] => RaisedTypeError rt
  end.

Definition builtin_breakpoint (args : list string) (rt : SetaRuntime)
  : outcome :=
  match args with
  | [] => Done (put OutBreakpoint rt)
  | _ => RaisedTypeError rt
  end.

(** [self.ptr( *args)] *)
Definition invoke (o : object) (args : list string) (rt : SetaRuntime)
  : outcome :=
  match o with
  | NullPointerTraceback =>
      match args with
      | [] => Done (report "NullPointerException" rt)
      | _ => RaisedTypeError rt      (* the method takes no argument *)
      end
  | BuiltinMethod display => builtin_display args rt
  | BuiltinMethod ftc => builtin_ftc args rt
  | BuiltinMethod wrap => builtin_wrap args rt
  | BuiltinMethod nInput => builtin_nInput args rt
  | BuiltinMethod breakpoint => builtin_breakpoint args rt
  | Plain _ => RaisedTypeError rt
  end.

Definition com_call (args : list string) (rt : SetaRuntime) : outcome :=
  match ptr rt with
  | None => Done (report "NullPointerException" rt)
  | Some o =>
      if negb (callable o) then Done (report "ArgumentException" rt)
      else invoke o args rt
  end.

(** *** [SetaRuntime.run] *)

(** The two statements that close every iteration. *)
Definition advance (rt : SetaRuntime) : SetaRuntime :=
  let '(c, sup) := instruction (support rt) in
  set_current (current_lineno rt + 1) c sup rt.

Inductive cycled :=
| Next (rt : SetaRuntime)        (* the loop goes on *)
| Exit (rt : SetaRuntime)        (* [sys.exit()] *)
| Traceback (rt : SetaRuntime).  (* an uncaught exception leaves [run] *)

(** [try: handler( *args) except TypeError: error(ArgumentException)],
    then the advance. *)
Definition guarded (o : outcome) : cycled :=
  match o with
  | Done rt => Next (advance rt)
  | RaisedTypeError rt => Next (advance (report "ArgumentException" rt))
  | Raised rt => Traceback rt
  end.

(** One iteration of [while True]. *)
Definition cycle (rt : SetaRuntime) : cycled :=
  if negb (status rt =? 0) then Exit rt
  else
    match current_code rt with
    | None =>
        Exit (if negb (ifs rt =? 0) then report "BlockException" rt else rt)
    | Some (com, args) =>
        let com := PyStr.lower com in
        if String.eqb com "endif" then guarded (com_endif args rt)
        else if negb (ifs rt =? 0) then
          Next (advance (if String.eqb com "if"
                         then set_ifs (ifs rt + 1) rt else rt))
        else if String.eqb com "set" then guarded (com_set args rt)
        else if String.eqb com "calc" then guarded (com_calc args rt)
        else if String.eqb com "load" then guarded (com_load args rt)
        else if String.eqb com "emp" then guarded (com_emp args rt)
        else if String.eqb com "if" then guarded (com_if args rt)
        else if String.eqb com "call" then guarded (com_call args rt)
        else Next (advance (report "UnsupportedOperationException" rt))
    end.

Inductive ending :=
| Exited (rt : SetaRuntime)
| Crashed (rt : SetaRuntime).

Definition final (e : ending) : SetaRuntime :=
  match e with Exited rt | Crashed rt => rt end.

Fixpoint run_loop (fuel : nat) (rt : SetaRuntime) : option ending :=
  match fuel with
  | O => None
  | S fuel =>
      match cycle rt with
      | Next rt => run_loop fuel rt
      | Exit rt => Some (Exited rt)
      | Traceback rt => Some (Crashed rt)
      end
  end.

(** The runtime after [n] iterations, when the loop gets that far. *)
Fixpoint cycles (n : nat) (rt : SetaRuntime) : option SetaRuntime :=
  match n with
  | O => Some rt
  | S n =>
      match cycle rt with
      | Next rt => cycles n rt
      | _ => None
      end
  end.

(** Lines not yet read. *)
Definition remaining (rt : SetaRuntime) : nat :=
  (length (text (support rt)) - pointer (support rt))%nat.

(** Every iteration but the last two reads a line, so this fuel is never
    exhausted ([run_total] below). *)
Definition run (rt : SetaRuntime) : option ending :=
  run_loop (S (S (remaining rt))) rt.

(** [Seta.__init__] on an existing file with these lines, then
    [Seta.run]. *)
Definition Seta_init (lines input : list string) : SetaRuntime :=
  let '(sup, rt) :=
    SetaStringOperationCode_init lines (SetaRuntime_init input) in
  setSupport sup rt.

Definition Seta_run (lines input : list string) : option ending :=
  run (Seta_init lines input).

End Runtime.

(** ** A reference instance of Python for closed examples

    Floats are exact rationals here and there are no complex numbers:
    the instance agrees with CPython as long as every float met is exactly
    representable, which is all the closed examples below need.  It knows
    no rounding, overflow, [nan] or non-integral power, and [eval] is
    restricted to decimal integer literals. *)

Module Exact.
Abbreviation Q := QArith_base.Q.

#[local] Instance types : PyTypes := {| pyfloat := Q; pycomplex := Empty_set |}.

Definition digit (c : ascii) : option Z :=
  if (Ascii.leb "0" c && Ascii.leb c "9")%bool
  then Some (Z.of_N (N_of_ascii c) - 48)
  else None.

Fixpoint digits (s : string) (acc : Z) : option Z :=
  match s with
  | EmptyString => Some acc
  | String c s' =>
      match digit c with
      | Some d => digits s' (10 * acc + d)
      | None => None
      end
  end.

(** A decimal integer literal: no empty one, no leading zero on a
    non-zero one. *)
Definition natural (s : string) : option Z :=
  match s with
  | EmptyString => None
  | String c _ =>
      match digits s 0 with
      | Some n => if (Ascii.eqb c "0" && negb (n =? 0))%bool then None
                  else Some n
      | None => None
      end
  end.

Definition integer (s : string) : option Z :=
  match s with
  | String "-" s' => Z.opp <$> natural s'
  | _ => natural s
  end.

Definition eval (s : string) : evaluated :=
  match integer s with
  | Some n => EvalValue (VInt n)
  | None => EvalRaises
  end.

(** [digits.digits] as a rational. *)
Fixpoint fraction (s : string) (num : Z) (den : positive) : option Q :=
  match s with
  | EmptyString => Some (Qreduction.Qred (QArith_base.Qmake num den))
  | String c s' =>
      match digit c with
      | Some d => fraction s' (10 * num + d) (10 * den)
      | None => None
      end
  end.

Fixpoint decimal (s : string) (acc : Z) : option Q :=
  match s with
  | EmptyString => Some (QArith_base.inject_Z acc)
  | String "." s' => fraction s' acc 1
  | String c s' =>
      match digit c with
      | Some d => decimal s' (10 * acc + d)
      | None => None
      end
  end.

Definition of_string (s : string) : option Q :=
  match s with
  | EmptyString | String "." EmptyString => None
  | _ => decimal s 0
  end.

Definition to_Q (v : value) : option Q :=
  match v with
  | VInt z => Some (QArith_base.inject_Z z)
  | VFloat q => Some q
  | _ => None
  end.

Definition arith (op : binop) (a b : value) : option number :=
  match to_Q a, to_Q b with
  | Some x, Some y =>
      match op with
      | Add => Some (NFloat (Qreduction.Qred (QArith_base.Qplus x y)))
      | Sub => Some (NFloat (Qreduction.Qred (QArith_base.Qminus x y)))
      | Mul => Some (NFloat (Qreduction.Qred (QArith_base.Qmult x y)))
      | TrueDiv =>
          if QArith_base.Qeq_bool y (QArith_base.inject_Z 0) then None
          else Some (NFloat (Qreduction.Qred (QArith_base.Qdiv x y)))
      | Pow =>
          let y := Qreduction.Qred y in
          if negb (Pos.eqb (QArith_base.Qden y) 1) then None
          else if (QArith_base.Qeq_bool x (QArith_base.inject_Z 0) && (QArith_base.Qnum y <? 0))%bool then None
          else Some (NFloat (Qreduction.Qred (QArith_base.Qpower x (QArith_base.Qnum y))))
      end
  | _, _ => None
  end.

Definition rel (r : Q -> Q -> bool) (a b : value) : bool :=
  match to_Q a, to_Q b with
  | Some x, Some y => r x y
  | _, _ => false
  end.

Definition to_int (v : value) : pyres :=
  match v with
  | VInt z => Returns (VInt z)
  | VFloat q => Returns (VInt (Z.quot (QArith_base.Qnum q) (Zpos (QArith_base.Qden q))))
  | VStr s => match integer s with
              | Some n => Returns (VInt n)
              | None => Raises
              end
  | _ => RaisesTypeError
  end.

Definition to_float (v : value) : pyres :=
  match v with
  | VInt z => Returns (VFloat (QArith_base.inject_Z z))
  | VFloat q => Returns (VFloat q)
  | VStr s => match of_string s with
              | Some q => Returns (VFloat q)
              | None => Raises
              end
  | _ => RaisesTypeError
  end.

#[local] Instance python : Python := {|
  py_eval := eval;
  float_arith := arith;
  float_eqb := rel QArith_base.Qeq_bool;
  float_ltb := rel (fun x y => negb (QArith_base.Qle_bool y x));
  float_leb := rel QArith_base.Qle_bool;
  py_int := to_int;
  py_float := to_float;
  float_of_string := of_string;
  float_gt_version := fun v => negb (QArith_base.Qle_bool v (QArith_base.inject_Z 1));
|}.

(** The runtime [Seta.__init__] builds for a program given line by line,
    with nothing to read on the terminal. *)
Definition start (program : list string) : SetaRuntime :=
  Seta_init (map line program) [].

Definition execute (program : list string) : option ending :=
  Seta_run (map line program) [].

Definition classes (rt : SetaRuntime) : list string :=
  map clsname (errors rt).

End Exact.

(** ** Properties *)

(** *** Identifiers *)

Lemma requireIdentifier_grammar (i : string) :
  requireIdentifier i = true <->
  exists c rest, i = String c rest
    /\ all_chars identifier_char i = true
    /\ is_digit_or_hash c = false.
Proof.
  split.
  - destruct i as [|c rest]; [discriminate|].
    unfold requireIdentifier.
    destruct (all_chars identifier_char (String c rest)) eqn:Hall;
      [|discriminate].
    destruct (is_digit_or_hash c) eqn:Hd; [discriminate|].
    intros _. exists c, rest. auto.
  - intros (c & rest & -> & Hall & Hd).
    unfold requireIdentifier. rewrite Hall, Hd. reflexivity.
Qed.

Section Properties.
Context {T : PyTypes} {P : Python}.

Implicit Types (rt : SetaRuntime) (args : list string) (com : string).

(** **** Reporting *)

Lemma report_status cls rt : status (report cls rt) = RUNTIME_STATUS_ERROR.
Proof. reflexivity. Qed.

Lemma report_errors cls rt :
  errors (report cls rt) = (errors rt ++ [exception cls rt])%list.
Proof. reflexivity. Qed.

Lemma report_frame cls rt :
  namespace (report cls rt) = namespace rt
  /\ ams (report cls rt) = ams rt
  /\ ifs (report cls rt) = ifs rt
  /\ ptr (report cls rt) = ptr rt
  /\ support (report cls rt) = support rt.
Proof. repeat split. Qed.

(** **** The dispatcher in the Executing state *)

Definition executing rt : Prop :=
  status rt = RUNTIME_STATUS_RUNNING /\ ifs rt = 0.

Lemma cycle_executing rt com args :
  executing rt ->
  current_code rt = Some (com, args) ->
  cycle rt =
    let com := PyStr.lower com in
    if String.eqb com "endif" then guarded (com_endif args rt)
    else if String.eqb com "set" then guarded (com_set args rt)
    else if String.eqb com "calc" then guarded (com_calc args rt)
    else if String.eqb com "load" then guarded (com_load args rt)
    else if String.eqb com "emp" then guarded (com_emp args rt)
    else if String.eqb com "if" then guarded (com_if args rt)
    else if String.eqb com "call" then guarded (com_call args rt)
    else Next (advance (report "UnsupportedOperationException" rt)).
Proof.
  intros [Hs Hi] Hc. unfold cycle. rewrite Hs, Hc, Hi. reflexivity.
Qed.

Lemma cycle_set rt com args :
  executing rt -> current_code rt = Some (com, args) ->
  PyStr.lower com = "set" -> cycle rt = guarded (com_set args rt).
Proof.
  intros He Hc Hl. rewrite (cycle_executing _ _ _ He Hc).
  cbv zeta. rewrite Hl. reflexivity.
Qed.

Lemma cycle_calc rt com args :
  executing rt -> current_code rt = Some (com, args) ->
  PyStr.lower com = "calc" -> cycle rt = guarded (com_calc args rt).
Proof.
  intros He Hc Hl. rewrite (cycle_executing _ _ _ He Hc).
  cbv zeta. rewrite Hl. reflexivity.
Qed.


Lemma cycle_if rt com args :
  executing rt -> current_code rt = Some (com, args) ->
  PyStr.lower com = "if" -> cycle rt = guarded (com_if args rt).
Proof.
  intros He Hc Hl. rewrite (cycle_executing _ _ _ He Hc).
  cbv zeta. rewrite Hl. reflexivity.
Qed.

Lemma cycle_call rt com args :
  executing rt -> current_code rt = Some (com, args) ->
  PyStr.lower com = "call" -> cycle rt = guarded (com_call args rt).
Proof.
  intros He Hc Hl. rewrite (cycle_executing _ _ _ He Hc).
  cbv zeta. rewrite Hl. reflexivity.
Qed.

(** **** [advance] only moves the program counter *)

Lemma advance_frame rt :
  status (advance rt) = status rt
  /\ namespace (advance rt) = namespace rt
  /\ ams (advance rt) = ams rt
  /\ ifs (advance rt) = ifs rt
  /\ ptr (advance rt) = ptr rt
  /\ errors (advance rt) = errors rt.
Proof.
  unfold advance. destruct (instruction (support rt)). repeat split.
Qed.

(** **** Operand resolution *)

Lemma resolve_literal arg z rt :
  py_eval arg = EvalValue (VInt z) ->
  String.eqb arg "@AMS" = false ->
  resolve arg rt = Some (VInt z).
Proof.
  intros He Ha. unfold resolve, requireReal. rewrite He, Ha. reflexivity.
Qed.

(** **** [calc]: the two domain guards *)

Lemma com_calc_div_zero rt a b r va vb :
  resolve a rt = Some va ->
  resolve b rt = Some vb ->
  py_eq vb (VInt 0) = true ->
  com_calc ["div"; a; b; r] rt = Done (report "MathException" rt).
Proof.
  intros Ha Hb Hz. unfold com_calc.
  change (operation_table "div") with (Some operator_truediv).
  rewrite Ha, Hb.
  change (String.eqb "div" OPERATION_DIV) with true.
  rewrite Hz. reflexivity.
Qed.

Lemma com_calc_power_zero rt a b r va vb :
  resolve a rt = Some va ->
  resolve b rt = Some vb ->
  py_eq va vb = true ->
  py_eq vb (VInt 0) = true ->
  com_calc ["power"; a; b; r] rt = Done (report "MathException" rt).
Proof.
  intros Ha Hb Hab Hz. unfold com_calc.
  change (operation_table "power") with (Some operator_pow).
  rewrite Ha, Hb.
  change (String.eqb "power" OPERATION_DIV) with false.
  change (String.eqb "power" OPERATION_POWER) with true.
  rewrite Hab, Hz. reflexivity.
Qed.

(** **** [calc div]: the write-back *)

(** What [calc] leaves under the result name [r] when it writes [q]. *)
Definition written (r : string) (q : value) rt : SetaVariable :=
  match namespace rt !! r with
  | Some var => with_value var q
  | None => with_value (Variable_new r VARIABLE_NUMERIC) q
  end.

Lemma operator_truediv_not_str a b q :
  operator_truediv a b = Returns q -> is_str q = false.
Proof.
  unfold operator_truediv, numeric.
  destruct (is_number a && is_number b); [|discriminate].
  destruct (float_arith TrueDiv a b) as [[]|]; intros [= <-]; reflexivity.
Qed.

Lemma com_calc_div rt a b r va vb q :
  resolve a rt = Some va ->
  resolve b rt = Some vb ->
  py_eq vb (VInt 0) = false ->
  requireIdentifier r = true ->
  operator_truediv va vb = Returns q ->
  com_calc ["div"; a; b; r] rt =
    match var_type <$> namespace rt !! r with
    | Some VARIABLE_STRING_CONST =>
        Done (report "ValueException" (set_ams q rt))
    | _ =>
        Done (set_namespace (<[r := written r q rt]> (namespace rt))
                (set_ams q rt))
    end.
Proof.
  intros Ha Hb Hz Hr Hq. pose proof (operator_truediv_not_str _ _ _ Hq) as Hs.
  unfold com_calc.
  change (operation_table "div") with (Some operator_truediv).
  rewrite Ha, Hb.
  change (String.eqb "div" OPERATION_DIV) with true.
  change (String.eqb "div" OPERATION_POWER) with false.
  rewrite Hz, Hr, Hq. cbn [andb negb].
  unfold written, NamespaceSearch, Variable_set. cbn [namespace set_ams].
  destruct (namespace rt !! r) as [[n [] v]|] eqn:Hl;
    cbn [fmap option_fmap option_map var_type NamespaceInput Variable_new
         with_value var_name var_value]; rewrite Hs.
  - reflexivity.
  - f_equal. unfold store, report, error, exception. cbn.
    rewrite insert_id; [reflexivity|exact Hl].
  - unfold store. cbn. rewrite insert_insert_eq. reflexivity.
Qed.

(** C1 (amended).  In the Executing state, [calc div a b r] whose operands
    resolve to [va] and [vb], with [vb == 0] false, [r] a valid identifier
    and Python's [va / vb] returning [q], always sets [@AMS] to [q].  If
    [r] is absent it is created as a Numeric variable holding [q]; if [r]
    is bound to a Numeric variable its value becomes [q]; no diagnostic is
    reported in either case.  If [r] is bound to a StringConst variable,
    [ValueException] is reported and the namespace is left as it was.  No
    other name is touched. *)
Theorem calc_div_writes_quotient rt com a b r va vb q :
  executing rt ->
  current_code rt = Some (com, ["div"; a; b; r]) ->
  PyStr.lower com = "calc" ->
  resolve a rt = Some va ->
  resolve b rt = Some vb ->
  py_eq vb (VInt 0) = false ->
  requireIdentifier r = true ->
  operator_truediv va vb = Returns q ->
  exists rt',
    cycle rt = Next (advance rt')
    /\ ams rt' = q
    /\ (forall k, k <> r -> namespace rt' !! k = namespace rt !! k)
    /\ match namespace rt !! r with
       | None =>
           namespace rt' !! r =
             Some {| var_name := r; var_type := VARIABLE_NUMERIC;
                     var_value := q |}
           /\ errors rt' = errors rt /\ status rt' = status rt
       | Some var =>
           match var_type var with
           | VARIABLE_NUMERIC =>
               namespace rt' !! r = Some (with_value var q)
               /\ errors rt' = errors rt /\ status rt' = status rt
           | VARIABLE_STRING_CONST =>
               namespace rt' = namespace rt
               /\ errors rt' = (errors rt ++ [exception "ValueException" rt])%list
               /\ status rt' = RUNTIME_STATUS_ERROR
           end
       end.
Proof.
  intros He Hc Hl Ha Hb Hz Hr Hq.
  rewrite (cycle_calc _ _ _ He Hc Hl),
    (com_calc_div _ _ _ _ _ _ _ Ha Hb Hz Hr Hq).
  unfold written.
  destruct (namespace rt !! r) as [[n [] v]|] eqn:Hn; cbn [fmap option_fmap option_map var_type].
  - eexists. split; [reflexivity|]. cbn. split; [reflexivity|].
    split; [intros k Hk; apply lookup_insert_ne; congruence|].
    rewrite lookup_insert_eq. auto.
  - eexists. split; [reflexivity|]. cbn. auto.
  - eexists. split; [reflexivity|]. cbn. split; [reflexivity|].
    split; [intros k Hk; apply lookup_insert_ne; congruence|].
    rewrite lookup_insert_eq. auto.
Qed.

(** C2 (amended).  In the Executing state, with the token [0] evaluating
    to the integer zero: [calc div a 0 r] reports [MathException] for
    every result name [r] and every operand token [a] that resolves (a
    numeric literal, [@AMS] or a declared variable), and
    [calc power 0 0 r] reports [MathException] for every [r].  In both
    cases the status becomes Error and neither [@AMS] nor the namespace
    changes. *)
Theorem calc_zero_guards rt com r :
  executing rt ->
  PyStr.lower com = "calc" ->
  py_eval "0" = EvalValue (VInt 0) ->
  let rt' := advance (report "MathException" rt) in
  (forall a, current_code rt = Some (com, ["div"; a; "0"; r]) ->
             resolve a rt <> None -> cycle rt = Next rt')
  /\ (current_code rt = Some (com, ["power"; "0"; "0"; r]) ->
      cycle rt = Next rt')
  /\ status rt' = RUNTIME_STATUS_ERROR
  /\ errors rt' = (errors rt ++ [exception "MathException" rt])%list
  /\ namespace rt' = namespace rt
  /\ ams rt' = ams rt.
Proof.
  intros He Hl H0 rt'.
  assert (Hz : resolve "0" rt = Some (VInt 0))
    by (apply resolve_literal; [exact H0|reflexivity]).
  split; [|split].
  - intros a Hc Ha. destruct (resolve a rt) as [va|] eqn:Hva; [|congruence].
    rewrite (cycle_calc _ _ _ He Hc Hl),
      (com_calc_div_zero _ _ _ _ _ _ Hva Hz); reflexivity.
  - intros Hc.
    rewrite (cycle_calc _ _ _ He Hc Hl),
      (com_calc_power_zero _ _ _ _ _ _ Hz Hz); reflexivity.
  - subst rt'. destruct (advance_frame (report "MathException" rt))
      as (-> & -> & -> & _ & _ & ->). repeat split.
Qed.

(** **** [load] and [call] *)

Lemma com_load_cases rt args :
  com_load args rt = RaisedTypeError rt
  \/ com_load args rt = Done (report "PackageException" rt)
  \/ exists obj, com_load args rt = Done (set_ptr (Some obj) rt).
Proof.
  unfold com_load. destruct args as [|p [|i [|]]]; auto.
  - destruct (PackageSearch "builtins" rt) as [pack|]; auto.
    destruct (ObjectSearch p pack) as [obj|]; eauto.
  - destruct (PackageSearch p rt) as [pack|]; auto.
    destruct (ObjectSearch i pack) as [obj|]; eauto.
Qed.

Lemma com_load_unknown_package rt package identifier :
  PackageSearch package rt = None ->
  com_load [package; identifier] rt = Done (report "PackageException" rt).
Proof. intros H. unfold com_load. rewrite H. reflexivity. Qed.

Lemma com_load_unknown_object rt package pack identifier :
  PackageSearch package rt = Some pack ->
  ObjectSearch identifier pack = None ->
  com_load [package; identifier] rt = Done (report "PackageException" rt)
  /\ (package = "builtins" ->
      com_load [identifier] rt = Done (report "PackageException" rt)).
Proof.
  intros H1 H2. unfold com_load. split; [|intros <-]; rewrite H1, H2; reflexivity.
Qed.

(** C10.  A [load] that reports [PackageException] leaves the pointer as
    it was: the target a following [call] invokes is the one held before
    the failed [load], and from the initial pointer that is the
    null-pointer handler, which reports [NullPointerException]. *)
Theorem failed_load_keeps_pointer rt args rt' :
  com_load args rt = Done rt' ->
  errors rt' = (errors rt ++ [exception "PackageException" rt])%list ->
  ptr rt' = ptr rt
  /\ (forall cargs,
        com_call cargs rt' =
          match ptr rt with
          | None => Done (report "NullPointerException" rt')
          | Some o =>
              if negb (callable o)
              then Done (report "ArgumentException" rt')
              else invoke o cargs rt'
          end)
  /\ (ptr rt = Some NullPointerTraceback ->
      com_call [] rt' = Done (report "NullPointerException" rt')).
Proof.
  intros Hload Herr.
  assert (Hp : ptr rt' = ptr rt).
  { destruct (com_load_cases rt args) as [H|[H|[obj H]]];
      rewrite H in Hload; try discriminate; injection Hload as <-.
    - reflexivity.
    - cbn in Herr. apply (f_equal (@length _)) in Herr.
      rewrite length_app in Herr. cbn in Herr. lia. }
  split; [exact Hp|]. unfold com_call. rewrite Hp. split.
  - reflexivity.
  - intros ->. reflexivity.
Qed.

(** What [call] does with the initial pointer: the handler reports
    [NullPointerException] only when it is given no argument. *)
Lemma call_null_pointer rt com args :
  executing rt ->
  current_code rt = Some (com, args) ->
  PyStr.lower com = "call" ->
  ptr rt = Some NullPointerTraceback ->
  cycle rt =
    Next (advance (report (match args with
                           | [] => "NullPointerException"
                           | _ => "ArgumentException"
                           end) rt)).
Proof.
  intros He Hc Hl Hp. rewrite (cycle_call _ _ _ He Hc Hl).
  unfold com_call. rewrite Hp. destruct args; reflexivity.
Qed.

(** **** [set] *)

Lemma com_set_numeric rt name lit z :
  requireIdentifier name = true ->
  requireReal lit = Some (VInt z) ->
  com_set ["numeric"; name; lit] rt =
    Done (NamespaceInput
            {| var_name := name; var_type := VARIABLE_NUMERIC;
               var_value := VInt z |} rt).
Proof.
  intros Hn Hr. unfold com_set. rewrite Hn, Hr. reflexivity.
Qed.

Lemma com_set_numeric_mismatch rt name lit texts :
  requireReal lit = None ->
  com_set ("numeric" :: name :: lit :: texts) rt =
    Done (report (if requireIdentifier name then "TypeException"
                  else "ArgumentException") rt).
Proof.
  intros Hr. unfold com_set. rewrite Hr.
  destruct (requireIdentifier name); reflexivity.
Qed.

Lemma com_set_replaces rt kind name lit texts rt' :
  com_set (kind :: name :: lit :: texts) rt = Done rt' ->
  namespace rt' <> namespace rt ->
  kind = "cstring" \/ (kind = "numeric" /\ requireReal lit <> None).
Proof.
  unfold com_set. intros H Hne.
  destruct (requireIdentifier name); cbn [negb] in H;
    [|injection H as <-; contradiction].
  destruct (String.eqb kind "numeric") eqn:Hk.
  - apply String.eqb_eq in Hk. right. split; [exact Hk|].
    destruct (requireReal lit); [discriminate|].
    injection H as <-; contradiction.
  - destruct (String.eqb kind "cstring") eqn:Hc.
    + left. apply String.eqb_eq, Hc.
    + injection H as <-; contradiction.
Qed.

(** C8.  With [5] a numeric literal and [foo] not one: executing
    [set numeric x 5] binds [x] to a Numeric variable holding 5 and stays
    in the Executing state; executing [set numeric x foo] next reports
    [TypeException], sets the status to Error and leaves the namespace as
    it was, so [x] still holds 5.  In general a [set] changes the
    namespace only when its kind is [cstring], or [numeric] with a
    literal that is a number. *)
Theorem set_mismatch_keeps_binding rt com1 com2 :
  executing rt ->
  PyStr.lower com1 = "set" ->
  PyStr.lower com2 = "set" ->
  requireReal "5" = Some (VInt 5) ->
  requireReal "foo" = None ->
  current_code rt = Some (com1, ["numeric"; "x"; "5"]) ->
  let x5 := {| var_name := "x"; var_type := VARIABLE_NUMERIC;
               var_value := VInt 5 |} in
  (exists rt1,
      cycle rt = Next rt1
      /\ executing rt1
      /\ namespace rt1 !! "x" = Some x5
      /\ (current_code rt1 = Some (com2, ["numeric"; "x"; "foo"]) ->
          exists rt2,
            cycle rt1 = Next rt2
            /\ status rt2 = RUNTIME_STATUS_ERROR
            /\ errors rt2 = (errors rt1 ++ [exception "TypeException" rt1])%list
            /\ namespace rt2 = namespace rt1
            /\ namespace rt2 !! "x" = Some x5))
  /\ (forall rt kind name lit texts rt',
        com_set (kind :: name :: lit :: texts) rt = Done rt' ->
        namespace rt' <> namespace rt ->
        kind = "cstring" \/ (kind = "numeric" /\ requireReal lit <> None)).
Proof.
  intros He Hl1 Hl2 H5 Hfoo Hc x5. split; [|exact com_set_replaces].
  rewrite (cycle_set _ _ _ He Hc Hl1), (com_set_numeric rt "x" "5" 5 eq_refl H5).
  eexists. split; [reflexivity|].
  set (rt1 := advance _).
  assert (Hns : namespace rt1 !! "x" = Some x5).
  { subst rt1 x5. destruct (advance_frame (NamespaceInput
      {| var_name := "x"; var_type := VARIABLE_NUMERIC;
         var_value := VInt 5 |} rt)) as (_ & -> & _).
    cbn. apply lookup_insert_eq. }
  assert (He1 : executing rt1).
  { subst rt1. destruct (advance_frame (NamespaceInput
      {| var_name := "x"; var_type := VARIABLE_NUMERIC;
         var_value := VInt 5 |} rt)) as (Hs & _ & _ & Hi & _).
    split; [rewrite Hs|rewrite Hi]; apply He. }
  split; [exact He1|]. split; [exact Hns|].
  intros Hc1.
  rewrite (cycle_set _ _ _ He1 Hc1 Hl2),
    (com_set_numeric_mismatch _ "x" _ [] Hfoo).
  change (requireIdentifier "x") with true. cbv iota.
  eexists. split; [reflexivity|].
  destruct (advance_frame (report "TypeException" rt1))
    as (-> & -> & _ & _ & _ & ->).
  repeat split. exact Hns.
Qed.

(** **** Reading the next line *)

Lemma advance_at rt l c :
  text (support rt) !! pointer (support rt) = Some l ->
  fst (instruction {| text := [l]; pointer := 0 |}) = c ->
  advance rt =
    set_current (current_lineno rt + 1) c (bump (support rt)) rt.
Proof.
  intros Hl <-. unfold advance, instruction. rewrite Hl. cbn.
  destruct (String.eqb l ""); [reflexivity|].
  destruct (String.eqb l newline || String.eqb l newline_cr); [reflexivity|].
  destruct (PyStr.split (PyStr.drop_last l)) as [|m [|]]; reflexivity.
Qed.

(** **** The skip machine *)

Lemma cycle_skipping rt com args :
  status rt = RUNTIME_STATUS_RUNNING ->
  ifs rt <> 0 ->
  current_code rt = Some (com, args) ->
  cycle rt =
    if String.eqb (PyStr.lower com) "endif" then guarded (com_endif args rt)
    else Next (advance (if String.eqb (PyStr.lower com) "if"
                        then set_ifs (ifs rt + 1) rt else rt)).
Proof.
  intros Hs Hi Hc. unfold cycle. rewrite Hs, Hc.
  apply Z.eqb_neq in Hi. rewrite Hi. reflexivity.
Qed.

Lemma cycle_endif rt com :
  status rt = RUNTIME_STATUS_RUNNING ->
  current_code rt = Some (com, []) ->
  PyStr.lower com = "endif" ->
  cycle rt =
    Next (advance (set_ifs (if ifs rt =? 0 then 0 else ifs rt - 1) rt)).
Proof.
  intros Hs Hc Hl. unfold cycle. rewrite Hs, Hc, Hl. reflexivity.
Qed.

Lemma com_if_false rt :
  py_eval "1" = EvalValue (VInt 1) ->
  py_eval "0" = EvalValue (VInt 0) ->
  com_if ["1"; "<"; "0"] rt = Done (set_ifs 1 rt).
Proof.
  intros H1 H0. unfold com_if.
  rewrite (resolve_literal "1" 1 rt H1 eq_refl),
    (resolve_literal "0" 0 rt H0 eq_refl).
  reflexivity.
Qed.

(** C3.  With [1] and [0] the integer literals.  While SkipDepth is
    positive, an [if] raises it by one, an [endif] lowers it by one, and
    any other mnemonic is consumed with nothing but the program counter
    changed; at depth 0 an [endif] leaves the depth at 0.  From the
    Executing state, [if 1 < 0] followed by the lines [if 1 > 0], [endif],
    [endif] gives the depths 1, 2, 1, 0: the dispatcher is back in
    Executing after the second [endif] and not before, and nothing was
    executed in between. *)
Theorem skip_depth :
  py_eval "1" = EvalValue (VInt 1) ->
  py_eval "0" = EvalValue (VInt 0) ->
  (forall rt com args,
      status rt = RUNTIME_STATUS_RUNNING ->
      0 < ifs rt ->
      current_code rt = Some (com, args) ->
      (PyStr.lower com = "if" ->
       cycle rt = Next (advance (set_ifs (ifs rt + 1) rt)))
      /\ (PyStr.lower com = "endif" -> args = [] ->
          cycle rt = Next (advance (set_ifs (ifs rt - 1) rt)))
      /\ (PyStr.lower com <> "if" -> PyStr.lower com <> "endif" ->
          cycle rt = Next (advance rt)))
  /\ (forall rt com,
        status rt = RUNTIME_STATUS_RUNNING ->
        ifs rt = 0 ->
        current_code rt = Some (com, []) ->
        PyStr.lower com = "endif" ->
        cycle rt = Next (advance (set_ifs 0 rt)))
  /\ (forall rt,
        executing rt ->
        current_code rt = Some ("if", ["1"; "<"; "0"]) ->
        text (support rt) !! pointer (support rt) = Some (line "if 1 > 0") ->
        text (support rt) !! S (pointer (support rt)) = Some (line "endif") ->
        text (support rt) !! S (S (pointer (support rt)))
          = Some (line "endif") ->
        exists rt1 rt2 rt3 rt4,
          cycle rt = Next rt1 /\ cycle rt1 = Next rt2
          /\ cycle rt2 = Next rt3 /\ cycle rt3 = Next rt4
          /\ ifs rt1 = 1 /\ ifs rt2 = 2 /\ ifs rt3 = 1 /\ ifs rt4 = 0
          /\ status rt4 = RUNTIME_STATUS_RUNNING
          /\ namespace rt4 = namespace rt
          /\ ams rt4 = ams rt
          /\ ptr rt4 = ptr rt
          /\ errors rt4 = errors rt).
Proof.
  intros H1 H0. split; [|split].
  - intros rt com args Hs Hd Hc.
    assert (Hne : ifs rt <> 0) by lia.
    rewrite (cycle_skipping _ _ _ Hs Hne Hc). repeat split.
    + intros Hl. rewrite Hl. reflexivity.
    + intros Hl ->. rewrite Hl. cbn.
      apply Z.eqb_neq in Hne. rewrite Hne. reflexivity.
    + intros Hif Hend.
      apply String.eqb_neq in Hif, Hend. rewrite Hif, Hend. reflexivity.
  - intros rt com Hs Hi Hc Hl.
    rewrite (cycle_endif _ _ Hs Hc Hl), Hi. reflexivity.
  - intros rt He Hc L1 L2 L3. destruct He as [Hs Hi].
    rewrite (cycle_if rt _ _ (conj Hs Hi) Hc eq_refl), (com_if_false rt H1 H0).
    cbn [guarded].
    rewrite (advance_at (set_ifs 1 rt) _ (Some ("if", ["1"; ">"; "0"])) L1
               eq_refl).
    set (rt1 := set_current _ _ _ _).
    assert (C2 : cycle rt1 = Next (advance (set_ifs 2 rt1))).
    { rewrite (cycle_skipping rt1 "if" ["1"; ">"; "0"]); [reflexivity|..].
      - exact Hs.
      - discriminate.
      - reflexivity. }
    rewrite (advance_at (set_ifs 2 rt1) _ (Some ("endif", [])) L2 eq_refl)
      in C2.
    set (rt2 := set_current _ _ _ _) in C2.
    assert (C3 : cycle rt2 = Next (advance (set_ifs 1 rt2))).
    { rewrite (cycle_endif rt2 "endif"); [reflexivity|exact Hs|..];
        reflexivity. }
    rewrite (advance_at (set_ifs 1 rt2) _ (Some ("endif", [])) L3 eq_refl)
      in C3.
    set (rt3 := set_current _ _ _ _) in C3.
    assert (C4 : cycle rt3 = Next (advance (set_ifs 0 rt3))).
    { rewrite (cycle_endif rt3 "endif"); [reflexivity|exact Hs|..];
        reflexivity. }
    exists rt1, rt2, rt3, (advance (set_ifs 0 rt3)).
    destruct (advance_frame (set_ifs 0 rt3)) as (-> & -> & -> & -> & -> & ->).
    repeat split; try assumption.
Qed.

(** **** What a handler can do to the status, the diagnostics and the
    stream *)

Definition outcome_rt (o : outcome) : SetaRuntime :=
  match o with Done rt | RaisedTypeError rt | Raised rt => rt end.

(** [rt'] comes from [rt] with the stream untouched, diagnostics only
    added, and the status changed only by a diagnostic. *)
Definition steady rt rt' : Prop :=
  support rt' = support rt
  /\ exists l, errors rt' = (errors rt ++ l)%list
               /\ status rt' = match l with
                               | [] => status rt
                               | _ => RUNTIME_STATUS_ERROR
                               end.

Ltac steady_tac :=
  unfold steady, report, error;
  cbn [support errors status set_status set_namespace set_current set_ams
       set_ifs set_ptr set_errors set_stdio NamespaceInput store put];
  split; [reflexivity|];
  first [ exists []; split; [symmetry; apply app_nil_r|reflexivity]
        | eexists [_]; split; reflexivity ].

Lemma Variable_set_cases var v rt :
  exists b var',
    Variable_set var v rt = (b, var', rt)
    \/ Variable_set var v rt = (b, var', report "ValueException" rt).
Proof.
  unfold Variable_set.
  destruct (is_str v), (var_type var); eauto.
Qed.

Ltac split_cases :=
  repeat match goal with
         | |- context [Variable_set ?a ?b ?c] =>
             destruct (Variable_set_cases a b c) as (? & ? & [-> | ->])
         | |- context [match (match ?x with _ => _ end) with _ => _ end] =>
             destruct x eqn:?
         | |- context [match ?x with _ => _ end] => destruct x eqn:?
         end.

Lemma com_endif_steady args rt : steady rt (outcome_rt (com_endif args rt)).
Proof. unfold com_endif. split_cases; cbn [outcome_rt]; steady_tac. Qed.

Lemma com_emp_steady args rt : steady rt (outcome_rt (com_emp args rt)).
Proof. unfold com_emp. split_cases; cbn [outcome_rt]; steady_tac. Qed.

Lemma com_if_steady args rt : steady rt (outcome_rt (com_if args rt)).
Proof. unfold com_if. split_cases; cbn [outcome_rt]; steady_tac. Qed.

Lemma com_load_steady args rt : steady rt (outcome_rt (com_load args rt)).
Proof. unfold com_load. split_cases; cbn [outcome_rt]; steady_tac. Qed.

Lemma com_set_steady args rt : steady rt (outcome_rt (com_set args rt)).
Proof.
  unfold com_set. split_cases; cbn [outcome_rt]; steady_tac.
Qed.

Lemma com_calc_steady args rt : steady rt (outcome_rt (com_calc args rt)).
Proof.
  unfold com_calc.
  split_cases; simplify_eq; cbn [outcome_rt]; steady_tac.
Qed.

Lemma com_call_steady args rt : steady rt (outcome_rt (com_call args rt)).
Proof.
  unfold com_call, invoke, builtin_display, builtin_ftc, builtin_wrap,
    builtin_nInput, builtin_breakpoint.
  split_cases; simplify_eq; cbn [outcome_rt]; steady_tac.
Qed.

Lemma steady_refl rt : steady rt rt.
Proof. steady_tac. Qed.

Lemma steady_report cls rt rt' : steady rt rt' -> steady rt (report cls rt').
Proof.
  intros (Hsup & l & He & Hs). split; [exact Hsup|].
  exists (l ++ [exception cls rt'])%list. split.
  - rewrite report_errors, He, app_assoc. reflexivity.
  - rewrite report_status. destruct l; reflexivity.
Qed.

Lemma steady_set_ifs x rt rt' : steady rt rt' -> steady rt (set_ifs x rt').
Proof. intros H. exact H. Qed.

(** **** One iteration, by the way it ends *)

Lemma guarded_next o rt rt' :
  steady rt (outcome_rt o) ->
  guarded o = Next rt' ->
  exists rt'', rt' = advance rt'' /\ steady rt rt''.
Proof.
  destruct o as [r|r|r]; cbn; intros Hst [= <-]; eexists; split;
    try reflexivity; auto using steady_report.
Qed.

Lemma cycle_next rt rt' :
  cycle rt = Next rt' ->
  current_code rt <> None
  /\ exists rt'', rt' = advance rt'' /\ steady rt rt''.
Proof.
  unfold cycle. destruct (negb (status rt =? 0)); [discriminate|].
  destruct (current_code rt) as [[com args]|]; [|discriminate].
  intros H. split; [discriminate|]. revert H.
  repeat match goal with
         | |- context [if ?b then _ else _] => destruct b
         end;
    try (apply guarded_next;
         auto using com_endif_steady, com_set_steady, com_calc_steady,
           com_load_steady, com_emp_steady, com_if_steady, com_call_steady);
    intros [= <-]; eexists; (split; [reflexivity|]);
    auto using steady_refl, steady_report, steady_set_ifs.
Qed.

Lemma cycle_exit rt rt' :
  cycle rt = Exit rt' ->
  (status rt <> 0 /\ rt' = rt)
  \/ (status rt = 0 /\ current_code rt = None
      /\ rt' = if negb (ifs rt =? 0) then report "BlockException" rt else rt).
Proof.
  unfold cycle. destruct (status rt =? 0) eqn:Hs; cbn [negb].
  - apply Z.eqb_eq in Hs.
    destruct (current_code rt) as [[com args]|].
    + repeat match goal with
             | |- context [if ?b then _ else _] => destruct b
             end;
        try discriminate;
        match goal with
        | |- guarded ?o = _ -> _ => destruct o; discriminate
        end.
    + intros [= <-]. right. auto.
  - apply Z.eqb_neq in Hs. intros [= <-]. left. auto.
Qed.

Lemma guarded_traceback o rt' : guarded o = Traceback rt' -> o = Raised rt'.
Proof. destruct o; cbn; congruence. Qed.

Lemma com_calc_raised args rt rt' : com_calc args rt = Raised rt' -> rt' = rt.
Proof.
  unfold com_calc. split_cases; congruence.
Qed.

Lemma com_call_raised args rt rt' :
  com_call args rt = Raised rt' -> ifs rt' = ifs rt.
Proof.
  unfold com_call, invoke, builtin_display, builtin_ftc, builtin_wrap,
    builtin_nInput, builtin_breakpoint.
  split_cases; try discriminate; intros [= <-]; reflexivity.
Qed.

Lemma cycle_traceback rt rt' : cycle rt = Traceback rt' -> ifs rt' = 0.
Proof.
  unfold cycle. destruct (negb (status rt =? 0)); [discriminate|].
  destruct (current_code rt) as [[com args]|]; [|discriminate].
  destruct (String.eqb (PyStr.lower com) "endif").
  { intros H%guarded_traceback. unfold com_endif in H.
    destruct args; discriminate. }
  destruct (ifs rt =? 0) eqn:Hi; cbn [negb]; [|discriminate].
  apply Z.eqb_eq in Hi.
  repeat match goal with
         | |- context [if ?b then _ else _] => destruct b
         end;
    try discriminate; intros H%guarded_traceback.
  - unfold com_set in H. revert H. split_cases; discriminate.
  - apply com_calc_raised in H. congruence.
  - unfold com_load in H. revert H. split_cases; discriminate.
  - unfold com_emp in H. revert H. split_cases; discriminate.
  - unfold com_if in H. revert H. split_cases; discriminate.
  - apply com_call_raised in H. congruence.
Qed.

(** **** [run] terminates *)

Definition measure rt : nat :=
  (remaining rt + match current_code rt with Some _ => 1 | None => 0 end)%nat.

Lemma advance_measure rt : (measure (advance rt) <= remaining rt)%nat.
Proof.
  unfold advance, instruction, measure, remaining.
  destruct (text (support rt) !! pointer (support rt)) as [l|] eqn:Hl.
  - apply lookup_lt_Some in Hl.
    destruct (String.eqb l ""); [cbn; lia|].
    destruct (String.eqb l newline || String.eqb l newline_cr); [cbn; lia|].
    destruct (PyStr.split (PyStr.drop_last l)) as [|m [|]]; cbn; lia.
  - cbn. lia.
Qed.

Lemma run_loop_total n rt :
  (measure rt < n)%nat -> exists e, run_loop n rt = Some e.
Proof.
  revert rt. induction n as [|n IH]; intros rt Hm; [lia|].
  cbn [run_loop]. destruct (cycle rt) as [rt'| |] eqn:Hc; eauto.
  apply IH. apply cycle_next in Hc as (Hcode & rt'' & -> & Hsup & _).
  pose proof (advance_measure rt'') as Ha.
  unfold measure, remaining in *. rewrite Hsup in Ha.
  destruct (current_code rt); [lia|contradiction].
Qed.

Lemma run_total rt : exists e, run rt = Some e.
Proof.
  apply run_loop_total. unfold measure.
  destruct (current_code rt); lia.
Qed.

(** **** A run that stops inside a skipped block has reported something *)

Definition good rt : Prop :=
  status rt = RUNTIME_STATUS_RUNNING
  \/ (status rt = RUNTIME_STATUS_ERROR /\ errors rt <> []).

Lemma steady_good rt rt' : good rt -> steady rt rt' -> good rt'.
Proof.
  intros Hg (_ & l & He & Hs). unfold good. rewrite He, Hs.
  destruct l as [|x l].
  - rewrite app_nil_r. exact Hg.
  - right. split; [reflexivity|]. destruct (errors rt); discriminate.
Qed.

Lemma advance_good rt : good rt -> good (advance rt).
Proof.
  unfold good.
  destruct (advance_frame rt) as (-> & _ & _ & _ & _ & ->). auto.
Qed.

Lemma run_loop_loud n rt e :
  good rt ->
  run_loop n rt = Some e ->
  ifs (final e) <> 0 ->
  status (final e) = RUNTIME_STATUS_ERROR /\ errors (final e) <> [].
Proof.
  revert rt. induction n as [|n IH]; intros rt Hg; [discriminate|].
  cbn [run_loop]. destruct (cycle rt) as [rt'|rt'|rt'] eqn:Hc.
  - apply IH. apply cycle_next in Hc as (_ & rt'' & -> & Hst).
    eauto using advance_good, steady_good.
  - intros [= <-] Hi. cbn [final] in *.
    apply cycle_exit in Hc as [[Hs ->]|(Hs & _ & ->)].
    + destruct Hg as [Hg|Hg]; [contradiction|exact Hg].
    + destruct (ifs rt =? 0) eqn:Hz; cbn [negb] in *.
      * apply Z.eqb_eq in Hz. contradiction.
      * rewrite report_status, report_errors. split; [reflexivity|].
        destruct (errors rt); discriminate.
  - intros [= <-] Hi. apply cycle_traceback in Hc. contradiction.
Qed.

Lemma Seta_init_good lines input : good (Seta_init lines input).
Proof.
  unfold Seta_init, SetaStringOperationCode_init, setSupport.
  destruct (precheck _) as [res sup].
  destruct (res =? 0); destruct (instruction sup); [left|right]; cbn; auto.
Qed.

(** C4 (amended).  A cycle that starts with the status Running, the
    stream at its end and SkipDepth not zero reports [BlockException] and
    terminates.  Every run terminates, and a run that ends with SkipDepth
    not zero has reported at least one diagnostic and has the status
    Error: that diagnostic is [BlockException] unless an earlier one had
    already stopped the loop. *)
Theorem unterminated_block_is_reported :
  (forall rt,
      status rt = RUNTIME_STATUS_RUNNING ->
      current_code rt = None ->
      ifs rt <> 0 ->
      cycle rt = Exit (report "BlockException" rt))
  /\ (forall lines input,
        exists e,
          Seta_run lines input = Some e
          /\ (ifs (final e) <> 0 ->
              status (final e) = RUNTIME_STATUS_ERROR
              /\ errors (final e) <> [])).
Proof.
  split.
  - intros rt Hs Hc Hi. unfold cycle. rewrite Hs, Hc.
    apply Z.eqb_neq in Hi. rewrite Hi. reflexivity.
  - intros lines input.
    destruct (run_total (Seta_init lines input)) as [e He].
    exists e. split; [exact He|].
    apply (run_loop_loud _ _ _ (Seta_init_good lines input) He).
Qed.

(** **** The header *)

(** The header rule in the spec's words: line 1 is [SETA-SOC <version>],
    two tokens, the version a number not above the supported one. *)
Definition header_ok (lines : list string) : Prop :=
  exists l rest version v,
    lines = l :: rest
    /\ PyStr.split (PyStr.drop_last l) = ["SETA-SOC"; version]
    /\ float_of_string version = Some v
    /\ float_gt_version v = false.

Lemma precheck_passes_iff lines :
  (precheck {| text := lines; pointer := 0 |}).1 = 0 <-> header_ok lines.
Proof.
  unfold precheck, header_ok. destruct lines as [|l rest]; cbn.
  { split; [discriminate|]. intros (? & ? & ? & ? & ? & _). discriminate. }
  destruct (String.eqb l "") eqn:Hl.
  { apply String.eqb_eq in Hl. subst l. split; [discriminate|].
    intros (? & ? & ? & ? & [= <- <-] & ? & _). discriminate. }
  destruct (PyStr.split (PyStr.drop_last l)) as [|flag [|version [|]]] eqn:Hs;
    cbn; try (split; [discriminate|];
              intros (? & ? & ? & ? & [= <- <-] & Hs' & _);
              rewrite Hs in Hs'; discriminate).
  destruct (String.eqb flag "SETA-SOC") eqn:Hf; cbn.
  - apply String.eqb_eq in Hf. subst flag.
    destruct (float_of_string version) as [v|] eqn:Hv; cbn.
    + destruct (float_gt_version v) eqn:Hg; cbn.
      * split; [discriminate|].
        intros (? & ? & ? & ? & [= <- <-] & Hs' & Hv' & Hg').
        rewrite Hs in Hs'. injection Hs' as <-. congruence.
      * split; [|reflexivity]. intros _. exists l, rest, version, v. auto.
    + split; [discriminate|].
      intros (? & ? & ? & ? & [= <- <-] & Hs' & Hv' & _).
      rewrite Hs in Hs'. injection Hs' as <-. congruence.
  - apply String.eqb_neq in Hf. split; [discriminate|].
    intros (? & ? & ? & ? & [= <- <-] & Hs' & _).
    rewrite Hs in Hs'. congruence.
Qed.

Lemma precheck_text sup : text (precheck sup).2 = text sup.
Proof.
  unfold precheck.
  repeat match goal with
         | |- context [match ?x with _ => _ end] => destruct x
         end; reflexivity.
Qed.

Lemma instruction_text sup : text (instruction sup).2 = text sup.
Proof.
  unfold instruction.
  repeat match goal with
         | |- context [match ?x with _ => _ end] => destruct x
         end; reflexivity.
Qed.

(** C6 (amended).  When the header fails validation, constructing the
    stream reports exactly one [PrecheckException], at line 1, and sets
    the status to Error; the stream is constructed all the same, holds
    every line, and its first instruction is read into the program
    counter.  [run] is then entered and leaves at its first status check:
    it returns the runtime as construction left it, no instruction having
    been executed. *)
Theorem failed_precheck_stops_the_run lines input :
  (precheck {| text := lines; pointer := 0 |}).1 <> 0 ->
  let rt := Seta_init lines input in
  errors rt = [{| clsname := "PrecheckException"; lineno := 1;
                  code := None |}]
  /\ status rt = RUNTIME_STATUS_ERROR
  /\ text (support rt) = lines
  /\ (current_code rt, support rt)
     = instruction (precheck {| text := lines; pointer := 0 |}).2
  /\ current_lineno rt = 2
  /\ namespace rt = ∅
  /\ stdout rt = []
  /\ Seta_run lines input = Some (Exited rt).
Proof.
  intros Hfail rt.
  assert (Hrt : rt = setSupport (precheck {| text := lines; pointer := 0 |}).2
                       (error {| clsname := "PrecheckException"; lineno := 1;
                                 code := None |} (SetaRuntime_init input))).
  { subst rt. unfold Seta_init, SetaStringOperationCode_init.
    destruct (precheck _) as [res sup]. cbn [fst snd] in *.
    apply Z.eqb_neq in Hfail. rewrite Hfail. reflexivity. }
  assert (Hst : status rt = RUNTIME_STATUS_ERROR).
  { rewrite Hrt. unfold setSupport. destruct (instruction _). reflexivity. }
  repeat split.
  - rewrite Hrt. unfold setSupport. destruct (instruction _). reflexivity.
  - exact Hst.
  - rewrite Hrt. unfold setSupport.
    pose proof (instruction_text (precheck {| text := lines; pointer := 0 |}).2) as Hi.
    destruct (instruction _) as [c sup']. cbn in *.
    rewrite Hi. apply precheck_text.
  - rewrite Hrt. unfold setSupport. destruct (instruction _). reflexivity.
  - rewrite Hrt. unfold setSupport. destruct (instruction _). reflexivity.
  - rewrite Hrt. unfold setSupport. destruct (instruction _). reflexivity.
  - rewrite Hrt. unfold setSupport. destruct (instruction _). reflexivity.
  - unfold Seta_run, run. fold rt. cbn [run_loop]. unfold cycle.
    rewrite Hst. reflexivity.
Qed.

(** **** [calc] has no type guard of its own *)

(** Whatever its arguments, [com_calc] adds no [TypeException] to the
    diagnostics. *)
Lemma com_calc_no_TypeException args rt e :
  In e (errors (outcome_rt (com_calc args rt))) ->
  In e (errors rt) \/ clsname e <> "TypeException".
Proof.
  unfold com_calc.
  split_cases; simplify_eq; cbn [outcome_rt]; unfold report, error;
    cbn [errors set_status set_namespace set_ams set_errors store
         NamespaceInput];
    rewrite ?in_app_iff; cbn [In]; intros H;
    repeat match goal with
           | H : _ \/ _ |- _ => destruct H
           | H : False |- _ => destruct H
           end; subst; auto; right; discriminate.
Qed.

(** **** The type guard of the [Operation] helpers *)

Lemma Operation_type_guard (arg1 arg2 : SetaVariable) rt :
  var_numeric arg1 && var_numeric arg2 = false ->
  Operation_add arg1 arg2 rt = (Returns VNone, report "TypeException" rt)
  /\ Operation_sub arg1 arg2 rt = (Returns VNone, report "TypeException" rt)
  /\ Operation_mul arg1 arg2 rt = (Returns VNone, report "TypeException" rt)
  /\ Operation_div arg1 arg2 rt = (Returns VNone, report "TypeException" rt)
  /\ Operation_power arg1 arg2 rt
     = (Returns VNone, report "TypeException" rt).
Proof.
  unfold Operation_add, Operation_sub, Operation_mul, Operation_div,
    Operation_power.
  destruct (var_numeric arg1), (var_numeric arg2); cbn;
    intros; try discriminate; repeat split.
Qed.

End Properties.

(** *** Identifiers against the grammar *)

Lemma identifier_char_grammar (c : ascii) : identifier_char c = grammar_char c.
Proof.
  destruct c as [[] [] [] [] [] [] [] []]; reflexivity.
Qed.

Lemma is_digit_or_hash_grammar (c : ascii) :
  is_digit_or_hash c = (ascii_digit c || Ascii.eqb c "#").
Proof.
  destruct c as [[] [] [] [] [] [] [] []]; reflexivity.
Qed.

Lemma all_chars_ext (p q : ascii -> bool) (s : string) :
  (forall c, p c = q c) -> all_chars p s = all_chars q s.
Proof.
  intros H. induction s as [|c s IH]; cbn; [reflexivity|].
  rewrite H, IH. reflexivity.
Qed.

(** C9 (amended).  Identifier validation accepts [a_9] and rejects
    [#tmp_1], [9x], the empty string and [a-b]; it accepts exactly the
    strings of the grammar: not empty, made of ASCII letters, digits,
    underscore and [#], the first character neither a digit nor [#]. *)
Theorem identifier_validation :
  requireIdentifier "a_9" = true
  /\ requireIdentifier "#tmp_1" = false
  /\ requireIdentifier "9x" = false
  /\ requireIdentifier "" = false
  /\ requireIdentifier "a-b" = false
  /\ forall i, requireIdentifier i = grammar_identifier i.
Proof.
  repeat split. intros [|c rest]; [reflexivity|].
  unfold requireIdentifier, grammar_identifier.
  rewrite (all_chars_ext _ _ _ identifier_char_grammar),
    is_digit_or_hash_grammar.
  destruct (all_chars grammar_char (String c rest)); [|reflexivity].
  destruct (ascii_digit c || Ascii.eqb c "#"); reflexivity.
Qed.

(** The claim's first example is rejected: [#] may not come first. *)
Lemma hash_prefixed_identifier_rejected : requireIdentifier "#tmp_1" <> true.
Proof. discriminate. Qed.

(** ** Closed examples, on the reference instance *)

Section Examples.
Import Exact.
#[local] Existing Instances Exact.types Exact.python.

Definition two : value := VFloat (QArith_base.Qmake 2 1).

(** [calc div 6 3 r] with [r] absent. *)
Lemma calc_div_writes_quotient_witness :
  let rt := start ["SETA-SOC 1.0"; "calc div 6 3 r"] in
  exists rt',
    cycle rt = Next (advance rt')
    /\ ams rt' = two
    /\ namespace rt' !! "r" =
         Some {| var_name := "r"; var_type := VARIABLE_NUMERIC;
                 var_value := two |}
    /\ errors rt' = [].
Proof.
  intros rt.
  destruct (calc_div_writes_quotient rt "calc" "6" "3" "r"
              (VInt 6) (VInt 3) two)
    as (rt' & Hc & Ha & _ & Hn);
    try reflexivity; [split; reflexivity|].
  change (namespace rt !! "r") with (@None SetaVariable) in Hn.
  destruct Hn as (Hn & He & _).
  exists rt'. repeat split; assumption.
Defined.

(** C1 fails when the result name is bound to a StringConst variable:
    after [set cstring r hi], the instruction [calc div 6 3 r] meets every
    condition of the claim, yet [r] still holds [hi]; only [@AMS] received
    the quotient, and [ValueException] was reported. *)
Lemma calc_div_cstring_result_counterexample :
  match cycles 1 (start ["SETA-SOC 1.0"; "set cstring r hi";
                         "calc div 6 3 r"]) with
  | Some rt =>
      executing rt
      /\ current_code rt = Some ("calc", ["div"; "6"; "3"; "r"])
      /\ resolve "6" rt = Some (VInt 6)
      /\ resolve "3" rt = Some (VInt 3)
      /\ py_eq (VInt 3) (VInt 0) = false
      /\ requireIdentifier "r" = true
      /\ operator_truediv (VInt 6) (VInt 3) = Returns two
      /\ match cycle rt with
         | Next rt' =>
             namespace rt' !! "r" =
               Some {| var_name := "r"; var_type := VARIABLE_STRING_CONST;
                       var_value := VStr "hi" |}
             /\ ams rt' = two
             /\ classes rt' = ["ValueException"]
         | _ => False
         end
  | None => False
  end.
Proof. vm_compute. repeat split. Qed.

(** [calc div 5 0 r]. *)
Lemma calc_zero_guards_witness :
  let rt := start ["SETA-SOC 1.0"; "calc div 5 0 r"] in
  cycle rt = Next (advance (report "MathException" rt))
  /\ status (advance (report "MathException" rt)) = RUNTIME_STATUS_ERROR
  /\ ams (advance (report "MathException" rt)) = ams rt.
Proof.
  intros rt.
  destruct (calc_zero_guards rt "calc" "r") as (Hdiv & _ & Hs & _ & _ & Ha);
    try reflexivity; [split; reflexivity|].
  split; [|split; assumption].
  apply (Hdiv "5"); [reflexivity|discriminate].
Defined.

(** C2 fails for an operand that does not resolve: [foo] is neither a
    literal nor a declared variable, and [calc div foo 0 r] reports
    [VariableException], not [MathException]. *)
Lemma calc_div_unresolved_operand_counterexample :
  resolve "foo" (start ["SETA-SOC 1.0"; "calc div foo 0 r"]) = None
  /\ match execute ["SETA-SOC 1.0"; "calc div foo 0 r"] with
     | Some (Exited rt) => classes rt = ["VariableException"]
     | _ => False
     end.
Proof. vm_compute. repeat split. Qed.

(** The four lines of the claim, run from the start. *)
Lemma skip_depth_witness :
  let rt := start ["SETA-SOC 1.0"; "if 1 < 0"; "if 1 > 0"; "endif";
                   "endif"] in
  exists rt1 rt2 rt3 rt4,
    cycle rt = Next rt1 /\ cycle rt1 = Next rt2
    /\ cycle rt2 = Next rt3 /\ cycle rt3 = Next rt4
    /\ ifs rt1 = 1 /\ ifs rt2 = 2 /\ ifs rt3 = 1 /\ ifs rt4 = 0
    /\ status rt4 = RUNTIME_STATUS_RUNNING
    /\ namespace rt4 = namespace rt
    /\ ams rt4 = ams rt
    /\ ptr rt4 = ptr rt
    /\ errors rt4 = errors rt.
Proof.
  intros rt.
  assert (H1 : py_eval "1" = EvalValue (VInt 1)) by reflexivity.
  assert (H0 : py_eval "0" = EvalValue (VInt 0)) by reflexivity.
  apply (proj2 (proj2 (skip_depth H1 H0)) rt);
    try reflexivity. split; reflexivity.
Defined.

(** An [if] left open, closed only by the end of the program. *)
Lemma unterminated_block_is_reported_witness :
  let rt := start ["SETA-SOC 1.0"; "if 1 < 0"] in
  match cycles 1 rt with
  | Some rt1 => cycle rt1 = Exit (report "BlockException" rt1)
  | None => False
  end.
Proof.
  intros rt.
  assert (H : exists rt1, cycles 1 rt = Some rt1
                          /\ status rt1 = RUNTIME_STATUS_RUNNING
                          /\ current_code rt1 = None /\ ifs rt1 <> 0).
  { eexists. split; [reflexivity|]. repeat split. discriminate. }
  destruct H as (rt1 & -> & Hs & Hc & Hi).
  apply (proj1 unterminated_block_is_reported rt1 Hs Hc Hi).
Defined.

(** C4 fails when an error has already stopped the loop: [endif x], met
    while skipping, raises [TypeError] in [com_endif]; the stream is at
    its end, SkipDepth is 1, and the run leaves at the status check
    without a [BlockException]. *)
Lemma open_block_without_block_exception_counterexample :
  match execute ["SETA-SOC 1.0"; "if 1 < 0"; "endif x"] with
  | Some (Exited rt) =>
      current_code rt = None
      /\ pointer (support rt) = length (text (support rt))
      /\ ifs rt = 1
      /\ classes rt = ["ArgumentException"]
      /\ ~ In "BlockException" (classes rt)
  | _ => False
  end.
Proof.
  vm_compute. repeat split. intros [H|[]]. discriminate.
Qed.

(** C5, at the failing input.  [com_calc] applies Python's operator to
    the resolved values without looking at their kind.  With [s] a
    StringConst variable holding [ab], [calc mul s 2 r] computes the
    string [abab], stores it in [@AMS], creates [r] and reports
    [ValueException] from the write-back; [calc add s 1 r] reports
    [ArgumentException], from the [TypeError] Python raises.  Neither
    reports [TypeException]. *)
Theorem calc_string_operand :
  match execute ["SETA-SOC 1.0"; "set cstring s ab"; "calc mul s 2 r"] with
  | Some (Exited rt) =>
      classes rt = ["ValueException"]
      /\ ams rt = VStr "abab"
      /\ namespace rt !! "r" =
           Some {| var_name := "r"; var_type := VARIABLE_NUMERIC;
                   var_value := VNone |}
  | _ => False
  end
  /\ match execute ["SETA-SOC 1.0"; "set cstring s ab"; "calc add s 1 r"] with
     | Some (Exited rt) => classes rt = ["ArgumentException"]
     | _ => False
     end.
Proof. vm_compute. repeat split. Qed.

(** A header with a version above the supported one. *)
Lemma failed_precheck_stops_the_run_witness :
  let lines := map line ["SETA-SOC 99.0"; "set numeric x 5"] in
  (precheck {| text := lines; pointer := 0 |}).1 = 3
  /\ Seta_run lines [] = Some (Exited (Seta_init lines []))
  /\ errors (Seta_init lines []) =
       [{| clsname := "PrecheckException"; lineno := 1; code := None |}].
Proof.
  intros lines.
  assert (H : (precheck {| text := lines; pointer := 0 |}).1 <> 0)
    by discriminate.
  destruct (failed_precheck_stops_the_run lines [] H)
    as (He & _ & _ & _ & _ & _ & _ & Hr).
  split; [reflexivity|]. split; assumption.
Defined.

(** C6 fails in its last part: after a failed precheck no instruction is
    executed.  Under the header [SETA-SOC 99.0] the line
    [set numeric x 5] is read into the program counter and stays there:
    [x] is never bound, whereas it is under [SETA-SOC 1.0]. *)
Lemma failed_precheck_executes_nothing_counterexample :
  match execute ["SETA-SOC 99.0"; "set numeric x 5"] with
  | Some (Exited rt) =>
      classes rt = ["PrecheckException"]
      /\ current_code rt = Some ("set", ["numeric"; "x"; "5"])
      /\ namespace rt !! "x" = None
  | _ => False
  end
  /\ match execute ["SETA-SOC 1.0"; "set numeric x 5"] with
     | Some (Exited rt) =>
         classes rt = []
         /\ namespace rt !! "x" =
              Some {| var_name := "x"; var_type := VARIABLE_NUMERIC;
                      var_value := VInt 5 |}
     | _ => False
     end.
Proof. vm_compute. repeat split. Qed.

(** C7, at the failing input.  Before any [load] the pointer holds
    [NullPointerTraceback], which takes no argument: [call x] raises
    [TypeError] and [ArgumentException] is reported; only a bare [call]
    reports [NullPointerException]. *)
Theorem call_with_argument_before_load :
  match execute ["SETA-SOC 1.0"; "call x"] with
  | Some (Exited rt) =>
      classes rt = ["ArgumentException"]
      /\ ptr rt = Some NullPointerTraceback
  | _ => False
  end
  /\ match execute ["SETA-SOC 1.0"; "call"] with
     | Some (Exited rt) => classes rt = ["NullPointerException"]
     | _ => False
     end.
Proof. vm_compute. repeat split. Qed.

(** The two [set] lines of the claim, run from the start. *)
Lemma set_mismatch_keeps_binding_witness :
  let rt := start ["SETA-SOC 1.0"; "set numeric x 5"; "set numeric x foo"] in
  let x5 := {| var_name := "x"; var_type := VARIABLE_NUMERIC;
               var_value := VInt 5 |} in
  exists rt1 rt2,
    cycle rt = Next rt1
    /\ cycle rt1 = Next rt2
    /\ status rt2 = RUNTIME_STATUS_ERROR
    /\ map clsname (errors rt2) = ["TypeException"]
    /\ namespace rt2 !! "x" = Some x5.
Proof.
  intros rt x5.
  assert (H5 : requireReal "5" = Some (VInt 5)) by reflexivity.
  assert (Hfoo : requireReal "foo" = None) by reflexivity.
  destruct (set_mismatch_keeps_binding rt "set" "set"
              (conj eq_refl eq_refl) eq_refl eq_refl H5 Hfoo eq_refl)
    as ((rt1 & Hc & _ & _ & Hnext) & _).
  assert (Hrt1 : Next rt1 = cycle rt) by (symmetry; exact Hc).
  vm_compute in Hrt1. injection Hrt1 as ->.
  destruct (Hnext eq_refl) as (rt2 & Hc2 & Hs & He & _ & Hx).
  eexists _, rt2. split; [exact Hc|]. split; [exact Hc2|].
  split; [exact Hs|]. split; [rewrite He; reflexivity|exact Hx].
Defined.

(** [load nosuch] on the initial registry. *)
Lemma failed_load_keeps_pointer_witness :
  let rt := start ["SETA-SOC 1.0"; "load nosuch"; "call"] in
  let rt' := report "PackageException" rt in
  com_load ["nosuch"] rt = Done rt'
  /\ ptr rt' = Some NullPointerTraceback
  /\ com_call [] rt' = Done (report "NullPointerException" rt').
Proof.
  intros rt rt'.
  assert (Hl : com_load ["nosuch"] rt = Done rt') by reflexivity.
  destruct (failed_load_keeps_pointer rt ["nosuch"] rt' Hl eq_refl)
    as (Hp & _ & Hnull).
  split; [exact Hl|]. split; [rewrite Hp; reflexivity|].
  apply Hnull. reflexivity.
Defined.

End Examples.

(** ** The rest of [SetaCore.py] *)


Section Remaining.
Context {T : PyTypes} {P : Python}.

(** *** [Variable]: the read-only properties *)

(** [defined], [undefined] *)
Definition Variable_defined (var : SetaVariable) : bool :=
  match var_value var with VNone => false | _ => true end.

Definition Variable_undefined (var : SetaVariable) : bool :=
  match var_value var with VNone => true | _ => false end.

(** [string] ([numeric] is [var_numeric]) *)
Definition Variable_string (var : SetaVariable) : bool :=
  match var_type var with VARIABLE_STRING_CONST => true | _ => false end.

(** [positive], [negative], [zero]: [Some None] is the [None] returned for
    a variable that is not numeric, [None] the [TypeError] of a comparison
    Python refuses. *)
Definition Variable_positive (var : SetaVariable) : option (option bool) :=
  if var_numeric var then Some <$> py_lt (VInt 0) (var_value var)
  else Some None.

Definition Variable_negative (var : SetaVariable) : option (option bool) :=
  if var_numeric var then Some <$> py_lt (var_value var) (VInt 0)
  else Some None.

Definition Variable_zero (var : SetaVariable) : option (option bool) :=
  if var_numeric var then Some (Some (py_eq (var_value var) (VInt 0)))
  else Some None.

(** *** [Package] and the registry of packages *)

(** [ObjectAppend]: the flag tells whether the key was there. *)
Definition ObjectAppend (key : string) (obj : object)
  (pool : gmap string object) : bool * gmap string object :=
  (bool_decide (is_Some (pool !! key)), <[key := obj]> pool).

(** [ObjectRemove]: the flag tells whether something was removed. *)
Definition ObjectRemove (key : string) (pool : gmap string object)
  : bool * gmap string object :=
  match pool !! key with
  | Some _ => (true, delete key pool)
  | None => (false, pool)
  end.

(** [PackageInput], on a package given by its name and pool. *)
Definition PackageInput (name : string) (pool : gmap string object)
  (rt : SetaRuntime) : bool * SetaRuntime :=
  (bool_decide (is_Some (packages rt !! name)),
   {| status := status rt; namespace := namespace rt;
      current_lineno := current_lineno rt; current_code := current_code rt;
      support := support rt; ams := ams rt; ifs := ifs rt; ptr := ptr rt;
      packages := <[name := pool]> (packages rt); errors := errors rt;
      stdout := stdout rt; stdin := stdin rt |}).

(** The flag [NamespaceInput] returns. *)
Definition NamespaceInput_existed (var : SetaVariable) (rt : SetaRuntime)
  : bool :=
  bool_decide (is_Some (namespace rt !! var_name var)).

(** *** [Seta.requireFloat], [Seta.requireImg] *)



(** *** The property [SetaRuntime.instruction] *)

Definition SetaRuntime_instruction (rt : SetaRuntime)
  : option instr * SetaRuntime :=
  (current_code rt, advance rt).

(** *** [SetaException.format]

    The message and the file name, which the record does not keep, are
    given beside it. *)
Definition format (exc : SetaException) (msg file : string) : string :=
  "seta.env.SetaCore.SetaException at line " ++ pretty (lineno exc) ++ ":"
  ++ newline
  ++ "    In file " ++ file ++ ", line " ++ pretty (lineno exc) ++ ":"
  ++ newline
  ++ "        "
  ++ match code exc with
     | Some (m, args) => PyStr.join (m :: args)
     | None => "[No Code Record]"
     end
  ++ newline
  ++ clsname exc ++ ": " ++ msg ++ newline.

(** *** [Seta.__init__]

    What [path] leads to: no such file, a file that cannot be opened or
    read, or the lines of a file. *)
Inductive source :=
| Missing
| Unreadable
| Lines (lines : list string).

Definition SETA_SOC : Z := 1.

Definition running_exception : SetaException :=
  {| clsname := "RunningException"; lineno := 0; code := None |}.

Definition Seta_new (path : source) (mode : Z) (input : list string)
  : SetaRuntime :=
  let rt := SetaRuntime_init input in
  match path with
  | Missing => error running_exception rt
  | Unreadable =>
      if (mode =? SETA_SOC)%Z then error running_exception rt  (* open fails *)
      else error running_exception rt                      (* invalid mode *)
  | Lines lines =>
      if (mode =? SETA_SOC)%Z then
        let '(sup, rt) := SetaStringOperationCode_init lines rt in
        setSupport sup rt
      else error running_exception rt
  end.

(** [seta.py]: [Seta(path, SETA_SOC)] then [run]. *)
Definition main (path : source) (input : list string) : option ending :=
  run (Seta_new path SETA_SOC input).

End Remaining.

(** ** Further properties *)

(** *** Lines and tokens *)

Definition no_space (s : string) : bool :=
  all_chars (fun c => negb (Ascii.eqb c " ")) s.

Lemma append_nil (t : string) : "" ++ t = t.
Proof. reflexivity. Qed.

Lemma append_cons (c : ascii) (s t : string) :
  String c s ++ t = String c (s ++ t).
Proof. reflexivity. Qed.

Lemma append_empty_r (s : string) : s ++ "" = s.
Proof.
  induction s as [|c s IH]; [reflexivity|]. rewrite append_cons, IH.
  reflexivity.
Qed.

Lemma rev_app_append (s1 s2 t : string) :
  String.rev_app s1 s2 ++ t = String.rev_app s1 (s2 ++ t).
Proof.
  revert s2. induction s1 as [|c s1 IH]; intros s2; cbn [String.rev_app];
    [reflexivity|].
  rewrite IH, append_cons. reflexivity.
Qed.

Lemma rev_app_rev_app (a b c : string) :
  String.rev_app (String.rev_app a b) c = String.rev_app b (a ++ c).
Proof.
  revert b c. induction a as [|x a IH]; intros b c; cbn [String.rev_app];
    [reflexivity|].
  rewrite IH. cbn [String.rev_app]. rewrite append_cons. reflexivity.
Qed.

Lemma split_go_not_nil (cur s : string) : PyStr.split_go cur s <> [].
Proof.
  revert cur. induction s as [|c s IH]; intros cur; cbn [PyStr.split_go];
    [discriminate|].
  destruct (Ascii.eqb c " "); [discriminate|apply IH].
Qed.

Lemma join_cons (x : string) (l : list string) :
  l <> [] -> PyStr.join (x :: l) = x ++ " " ++ PyStr.join l.
Proof. destruct l; [contradiction|reflexivity]. Qed.

Lemma join_split_go (cur s : string) :
  PyStr.join (PyStr.split_go cur s) = String.rev cur ++ s.
Proof.
  revert cur. induction s as [|c s IH]; intros cur; cbn [PyStr.split_go].
  - cbn [PyStr.join]. symmetry. apply append_empty_r.
  - destruct (Ascii.eqb c " ") eqn:Hc.
    + apply Ascii.eqb_eq in Hc. subst c.
      rewrite join_cons by apply split_go_not_nil.
      rewrite IH. reflexivity.
    + rewrite IH. unfold String.rev. cbn [String.rev_app].
      rewrite !rev_app_append. reflexivity.
Qed.

Lemma split_go_token (x cur s : string) :
  no_space x = true ->
  PyStr.split_go cur (x ++ s) = PyStr.split_go (String.rev_app x cur) s.
Proof.
  revert cur. induction x as [|c x IH]; intros cur Hx; [reflexivity|].
  rewrite append_cons. cbn [PyStr.split_go String.rev_app].
  unfold no_space in Hx. cbn [all_chars] in Hx.
  apply andb_prop in Hx as [Hc Hx].
  apply negb_true_iff in Hc. rewrite Hc. apply IH, Hx.
Qed.

Lemma rev_rev_app (x : string) : String.rev (String.rev_app x "") = x.
Proof.
  unfold String.rev. rewrite rev_app_rev_app. cbn [String.rev_app].
  apply append_empty_r.
Qed.

Lemma split_join (l : list string) :
  l <> [] ->
  forallb no_space l = true ->
  PyStr.split (PyStr.join l) = l.
Proof.
  unfold PyStr.split. induction l as [|x l IH]; [contradiction|].
  intros _ Hl. cbn [forallb] in Hl. apply andb_prop in Hl as [Hx Hl].
  destruct l as [|y l].
  - cbn [PyStr.join]. rewrite <- (append_empty_r x) at 1.
    rewrite split_go_token by exact Hx. cbn [PyStr.split_go].
    rewrite rev_rev_app. reflexivity.
  - rewrite join_cons by discriminate.
    rewrite split_go_token by exact Hx.
    rewrite append_cons, append_nil. cbn [PyStr.split_go].
    change (Ascii.eqb " " " ") with true. cbv iota.
    rewrite IH by (discriminate || exact Hl).
    rewrite rev_rev_app. reflexivity.
Qed.

Lemma drop_last_line (s : string) : PyStr.drop_last (line s) = s.
Proof.
  unfold line, newline. induction s as [|c s IH]; [reflexivity|].
  rewrite append_cons. destruct s as [|d s]; [reflexivity|].
  rewrite append_cons in *. cbn [PyStr.drop_last] in *. rewrite IH.
  reflexivity.
Qed.

(** *** What one handler call, one iteration and one run can change *)

Section Effects.
Context {T : PyTypes} {P : Python}.

Implicit Types (rt : SetaRuntime) (args : list string) (com : string).

(** The stream, the program counter and the registry are as before. *)
Definition quiet rt rt' : Prop :=
  support rt' = support rt
  /\ current_code rt' = current_code rt
  /\ current_lineno rt' = current_lineno rt
  /\ packages rt' = packages rt.

(** No diagnostic, or one, built at the current instruction. *)
Definition single rt rt' : Prop :=
  (errors rt' = errors rt /\ status rt' = status rt)
  \/ (exists cls, errors rt' = (errors rt ++ [exception cls rt])%list
                  /\ status rt' = RUNTIME_STATUS_ERROR).

(** A handler that raises has reported nothing. *)
Definition contained rt (o : outcome) : Prop :=
  match o with
  | Done rt' => quiet rt rt' /\ single rt rt'
  | RaisedTypeError rt' | Raised rt' =>
      quiet rt rt' /\ errors rt' = errors rt /\ status rt' = status rt
  end.

End Effects.

Ltac cases_tac :=
  repeat match goal with
         | |- context [Variable_set ?a ?b ?c] =>
             destruct (Variable_set_cases a b c) as (? & ? & [-> | ->])
         | |- context [match (match ?x with _ => _ end) with _ => _ end] =>
             destruct x eqn:?
         | |- context [match ?x with _ => _ end] => destruct x eqn:?
         end.

Ltac contained_tac :=
  unfold contained, quiet, single, report, error, exception;
  cbn [support errors status current_code current_lineno packages
       set_status set_namespace set_current set_ams
       set_ifs set_ptr set_errors set_stdio NamespaceInput store put];
  repeat split;
  first [ left; split; reflexivity
        | right; eexists; split; reflexivity ].

Section Containment.
Context {T : PyTypes} {P : Python}.

Implicit Types (rt : SetaRuntime) (args : list string) (com : string).

Lemma com_endif_contained args rt : contained rt (com_endif args rt).
Proof. unfold com_endif. cases_tac; contained_tac. Qed.

Lemma com_emp_contained args rt : contained rt (com_emp args rt).
Proof. unfold com_emp. cases_tac; contained_tac. Qed.

Lemma com_if_contained args rt : contained rt (com_if args rt).
Proof. unfold com_if. cases_tac; contained_tac. Qed.

Lemma com_load_contained args rt : contained rt (com_load args rt).
Proof. unfold com_load. cases_tac; contained_tac. Qed.

Lemma com_set_contained args rt : contained rt (com_set args rt).
Proof. unfold com_set. cases_tac; contained_tac. Qed.

Lemma com_calc_contained args rt : contained rt (com_calc args rt).
Proof. unfold com_calc. cases_tac; simplify_eq; contained_tac. Qed.

Lemma com_call_contained args rt : contained rt (com_call args rt).
Proof.
  unfold com_call, invoke, builtin_display, builtin_ftc, builtin_wrap,
    builtin_nInput, builtin_breakpoint.
  cases_tac; simplify_eq; contained_tac.
Qed.

Lemma quiet_report cls rt rt' :
  quiet rt rt' -> errors rt' = errors rt ->
  quiet rt (report cls rt')
  /\ errors (report cls rt') = (errors rt ++ [exception cls rt])%list.
Proof.
  intros (Hs & Hc & Hl & Hp) He. repeat split; try assumption.
  rewrite report_errors, He. unfold exception. rewrite Hc, Hl. reflexivity.
Qed.

Lemma guarded_contained o rt rt' :
  contained rt o ->
  guarded o = Next rt' ->
  exists rt'', rt' = advance rt'' /\ quiet rt rt'' /\ single rt rt''.
Proof.
  destruct o as [r|r|r]; cbn [contained guarded].
  - intros [Hq Hs] [= <-]. eauto.
  - intros (Hq & He & Hs) [= <-].
    destruct (quiet_report "ArgumentException" rt r Hq He) as [Hq' He'].
    eexists. split; [reflexivity|]. split; [exact Hq'|].
    right. exists "ArgumentException". split; [exact He'|reflexivity].
  - discriminate.
Qed.

Lemma cycle_contained rt rt' :
  cycle rt = Next rt' ->
  status rt = RUNTIME_STATUS_RUNNING
  /\ current_code rt <> None
  /\ exists rt'', rt' = advance rt'' /\ quiet rt rt'' /\ single rt rt''.
Proof.
  unfold cycle. destruct (status rt =? 0) eqn:Hs; [|discriminate].
  apply Z.eqb_eq in Hs. cbn [negb].
  destruct (current_code rt) as [[com args]|]; [|discriminate].
  intros H. split; [exact Hs|]. split; [discriminate|]. revert H.
  repeat match goal with
         | |- context [if ?b then _ else _] => destruct b
         end;
    try (apply guarded_contained;
         auto using com_endif_contained, com_set_contained,
           com_calc_contained, com_load_contained, com_emp_contained,
           com_if_contained, com_call_contained);
    intros [= <-]; eexists; (split; [reflexivity|]); contained_tac.
Qed.

Lemma cycle_raised rt rt' :
  cycle rt = Traceback rt' ->
  status rt = RUNTIME_STATUS_RUNNING
  /\ quiet rt rt' /\ errors rt' = errors rt /\ status rt' = status rt.
Proof.
  unfold cycle. destruct (status rt =? 0) eqn:Hs; [|discriminate].
  apply Z.eqb_eq in Hs. cbn [negb].
  destruct (current_code rt) as [[com args]|]; [|discriminate].
  intros H. split; [exact Hs|]. revert H.
  repeat match goal with
         | |- context [if ?b then _ else _] => destruct b
         end; try discriminate;
    intros H%guarded_traceback;
    match type of H with
    | com_endif _ _ = _ => pose proof (com_endif_contained args rt) as Hc
    | com_set _ _ = _ => pose proof (com_set_contained args rt) as Hc
    | com_calc _ _ = _ => pose proof (com_calc_contained args rt) as Hc
    | com_load _ _ = _ => pose proof (com_load_contained args rt) as Hc
    | com_emp _ _ = _ => pose proof (com_emp_contained args rt) as Hc
    | com_if _ _ = _ => pose proof (com_if_contained args rt) as Hc
    | com_call _ _ = _ => pose proof (com_call_contained args rt) as Hc
    end; rewrite H in Hc; exact Hc.
Qed.

(** Induction over the iterations of [run]. *)
Lemma run_loop_invariant (I : SetaRuntime -> Prop) :
  (forall rt rt', I rt -> cycle rt = Next rt' -> I rt') ->
  (forall rt rt', I rt -> cycle rt = Exit rt' -> I rt') ->
  (forall rt rt', I rt -> cycle rt = Traceback rt' -> I rt') ->
  forall n rt e, I rt -> run_loop n rt = Some e -> I (final e).
Proof.
  intros HN HE HT. induction n as [|n IH]; intros rt e Hi; [discriminate|].
  cbn [run_loop]. destruct (cycle rt) as [rt'|rt'|rt'] eqn:Hc.
  - apply IH. eauto.
  - intros [= <-]. cbn [final]. eauto.
  - intros [= <-]. cbn [final]. eauto.
Qed.

Lemma cycles_invariant (I : SetaRuntime -> Prop) :
  (forall rt rt', I rt -> cycle rt = Next rt' -> I rt') ->
  forall n rt rt', I rt -> cycles n rt = Some rt' -> I rt'.
Proof.
  intros HN. induction n as [|n IH]; intros rt rt' Hi; cbn [cycles].
  - intros [= <-]. exact Hi.
  - destruct (cycle rt) as [r| |] eqn:Hc; try discriminate. apply IH. eauto.
Qed.

End Containment.

(** *** Whole runs *)

Section Runs.
Context {T : PyTypes} {P : Python}.

Implicit Types (rt : SetaRuntime) (args : list string) (com : string).



(** At most one diagnostic, and the status says whether there is one. *)
Definition tidy rt : Prop :=
  (status rt = RUNTIME_STATUS_RUNNING /\ errors rt = [])
  \/ (status rt = RUNTIME_STATUS_ERROR /\ exists x, errors rt = [x]).

Lemma tidy_next rt rt' : tidy rt -> cycle rt = Next rt' -> tidy rt'.
Proof.
  intros Ht (Hs & _ & rt'' & -> & _ & Hsingle)%cycle_contained.
  destruct Ht as [[_ He]|[Hs' _]]; [|rewrite Hs in Hs'; discriminate].
  unfold tidy. destruct (advance_frame rt'') as (-> & _ & _ & _ & _ & ->).
  destruct Hsingle as [[-> ->]|(cls & -> & ->)].
  - left. auto.
  - right. rewrite He. split; [reflexivity|]. eexists. reflexivity.
Qed.

Lemma tidy_exit rt rt' : tidy rt -> cycle rt = Exit rt' -> tidy rt'.
Proof.
  intros Ht [[_ ->]|(Hs & _ & ->)]%cycle_exit; [exact Ht|].
  destruct (negb (ifs rt =? 0)); [|exact Ht].
  destruct Ht as [[_ He]|[Hs' _]]; [|rewrite Hs in Hs'; discriminate].
  right. rewrite report_status, report_errors, He. split; [reflexivity|].
  eexists. reflexivity.
Qed.

Lemma tidy_raised rt rt' : tidy rt -> cycle rt = Traceback rt' -> tidy rt'.
Proof.
  intros Ht (_ & _ & He & Hs)%cycle_raised. unfold tidy. rewrite He, Hs.
  exact Ht.
Qed.

Lemma Seta_new_tidy path mode input : tidy (Seta_new path mode input).
Proof.
  unfold Seta_new, SetaStringOperationCode_init, setSupport.
  destruct path as [| |lines]; [right|..].
  - split; [reflexivity|]. eexists. reflexivity.
  - destruct (mode =? SETA_SOC); right; (split; [reflexivity|]);
      eexists; reflexivity.
  - destruct (mode =? SETA_SOC).
    + destruct (precheck _) as [res sup].
      destruct (res =? 0); destruct (instruction sup); [left|right]; cbn; auto.
      split; [reflexivity|]. eexists. reflexivity.
    + right. split; [reflexivity|]. eexists. reflexivity.
Qed.

(** X2.  Whatever the file, the terminal input and the mode, the
    interpreter ends having reported at most one diagnostic: either none,
    with the status still Running (it is never set to Quited), or exactly
    one, with the status Error. *)
Theorem at_most_one_diagnostic path mode input :
  exists e,
    run (Seta_new path mode input) = Some e
    /\ ((status (final e) = RUNTIME_STATUS_RUNNING /\ errors (final e) = [])
        \/ (status (final e) = RUNTIME_STATUS_ERROR
            /\ exists x, errors (final e) = [x])).
Proof.
  destruct (run_total (Seta_new path mode input)) as [e He].
  exists e. split; [exact He|].
  apply (run_loop_invariant tidy tidy_next tidy_exit tidy_raised _ _ _
           (Seta_new_tidy path mode input) He).
Qed.

End Runs.

(** *** Where a diagnostic points *)

Section Location.
Context {T : PyTypes} {P : Python}.

Implicit Types (rt : SetaRuntime) (args : list string) (com : string).

(** What [instruction] makes of one line. *)
Definition parsed (l : string) : option instr :=
  (instruction {| text := [l]; pointer := 0 |}).1.

Lemma instruction_parsed sup l :
  text sup !! pointer sup = Some l ->
  instruction sup = (parsed l, bump sup).
Proof.
  intros Hl. unfold parsed, instruction. rewrite Hl. cbn.
  destruct (String.eqb l ""); [reflexivity|].
  destruct (String.eqb l newline || String.eqb l newline_cr); [reflexivity|].
  destruct (PyStr.split (PyStr.drop_last l)) as [|m [|]]; reflexivity.
Qed.

Lemma instruction_end sup :
  text sup !! pointer sup = None -> instruction sup = (None, sup).
Proof. intros Hl. unfold instruction. rewrite Hl. reflexivity. Qed.

(** A line parsed into an instruction is quoted by it, but for its last
    character. *)
Lemma parsed_quotes l m args :
  parsed l = Some (m, args) ->
  ((l = newline \/ l = newline_cr) /\ m = "emp" /\ args = [])
  \/ PyStr.join (m :: args) = PyStr.drop_last l.
Proof.
  unfold parsed, instruction. cbn.
  destruct (String.eqb l ""); [discriminate|].
  destruct (String.eqb l newline) eqn:H1; cbn [orb].
  { apply String.eqb_eq in H1. intros [= <- <-]. auto. }
  destruct (String.eqb l newline_cr) eqn:H2.
  { apply String.eqb_eq in H2. intros [= <- <-]. auto. }
  pose proof (join_split_go "" (PyStr.drop_last l)) as Hj.
  fold (PyStr.split (PyStr.drop_last l)) in Hj.
  destruct (PyStr.split (PyStr.drop_last l)) as [|x [|y r]];
    [discriminate|..]; intros [= <- <-]; right; exact Hj.
Qed.

(** The diagnostic [x] carries no instruction, or the one read from the
    line of number [lineno x]. *)
Definition on_line (lines : list string) (x : SetaException) : Prop :=
  forall c, code x = Some c ->
    2 <= lineno x
    /\ exists l, lines !! (Z.to_nat (lineno x) - 1)%nat = Some l
                 /\ parsed l = Some c.

Definition in_step (lines : list string) rt : Prop :=
  text (support rt) = lines
  /\ 2 <= current_lineno rt
  /\ (forall c, current_code rt = Some c ->
        pointer (support rt) = Z.to_nat (current_lineno rt)
        /\ exists l, lines !! (pointer (support rt) - 1)%nat = Some l
                     /\ parsed l = Some c)
  /\ Forall (on_line lines) (errors rt).

Lemma in_step_single lines rt rt' :
  in_step lines rt -> quiet rt rt' -> single rt rt' -> in_step lines rt'.
Proof.
  intros (Ht & Hl & Hc & He) (Hs' & Hc' & Hl' & _) Hsingle.
  unfold in_step. rewrite Hs', Hc', Hl'.
  split; [exact Ht|]. split; [exact Hl|]. split; [exact Hc|].
  destruct Hsingle as [[-> _]|(cls & -> & _)]; [exact He|].
  apply Forall_app. split; [exact He|]. constructor; [|constructor].
  intros c Hcode. cbn in Hcode. split; [exact Hl|].
  destruct (Hc c Hcode) as (Hp & l & Hlk & Hpar). cbn [lineno exception].
  rewrite <- Hp. eauto.
Qed.

Lemma in_step_advance lines rt :
  in_step lines rt -> current_code rt <> None -> in_step lines (advance rt).
Proof.
  intros (Ht & Hl & Hc & He) Hcode.
  destruct (current_code rt) as [c0|] eqn:Hc0; [|contradiction].
  destruct (Hc c0 eq_refl) as (Hp & _).
  unfold advance.
  destruct (text (support rt) !! pointer (support rt)) as [l|] eqn:Hlk.
  - rewrite (instruction_parsed _ _ Hlk). unfold in_step. cbn.
    split; [exact Ht|]. split; [lia|]. split; [|exact He].
    intros c Hpar. split; [rewrite Hp; lia|].
    exists l. rewrite Nat.sub_0_r, <- Ht. auto.
  - rewrite (instruction_end _ Hlk). unfold in_step. cbn.
    split; [exact Ht|]. split; [lia|]. split; [discriminate|exact He].
Qed.

Lemma in_step_next lines rt rt' :
  in_step lines rt -> cycle rt = Next rt' -> in_step lines rt'.
Proof.
  intros Hi (_ & Hc & rt'' & -> & Hq & Hs)%cycle_contained.
  apply in_step_advance; [eauto using in_step_single|].
  destruct Hq as (_ & -> & _). exact Hc.
Qed.

Lemma in_step_exit lines rt rt' :
  in_step lines rt -> cycle rt = Exit rt' -> in_step lines rt'.
Proof.
  intros Hi [[_ ->]|(_ & Hc & ->)]%cycle_exit; [exact Hi|].
  destruct (negb (ifs rt =? 0)); [|exact Hi].
  destruct Hi as (Ht & Hl & Hcode & He). unfold in_step. cbn.
  split; [exact Ht|]. split; [exact Hl|]. split; [exact Hcode|].
  apply Forall_app. split; [exact He|]. constructor; [|constructor].
  intros c. cbn. rewrite Hc. discriminate.
Qed.

Lemma in_step_raised lines rt rt' :
  in_step lines rt -> cycle rt = Traceback rt' -> in_step lines rt'.
Proof.
  intros (Ht & Hl & Hc & He) (_ & (Hs' & Hc' & Hl' & _) & He' & _)%cycle_raised.
  unfold in_step. rewrite Hs', Hc', Hl', He'. auto.
Qed.

Lemma Seta_init_in_step lines input : in_step lines (Seta_init lines input).
Proof.
  unfold Seta_init, SetaStringOperationCode_init.
  pose proof (precheck_text {| text := lines; pointer := 0 |}) as Ht.
  assert (Hp : pointer (precheck {| text := lines; pointer := 0 |}).2 = 1%nat
               \/ lines = []).
  { unfold precheck. cbn. destruct lines as [|l0 rest]; [auto|left]. cbn.
    repeat match goal with
           | |- context [match ?x with _ => _ end] => destruct x
           end; reflexivity. }
  destruct (precheck _) as [res sup]. cbn [fst snd text] in *.
  destruct (text sup !! pointer sup) as [l|] eqn:Hlk.
  - destruct Hp as [Hp| ->]; [|rewrite Ht in Hlk; discriminate].
    assert (Hstep : forall c, parsed l = Some c ->
              S (pointer sup) = Z.to_nat 2
              /\ exists l0, lines !! (S (pointer sup) - 1)%nat = Some l0
                            /\ parsed l0 = Some c).
    { intros c Hc. split; [rewrite Hp; reflexivity|].
      exists l. rewrite <- Ht, Nat.sub_succ, Nat.sub_0_r. auto. }
    destruct (res =? 0) eqn:Hres; unfold setSupport;
      rewrite (instruction_parsed _ _ Hlk); unfold in_step; cbn.
    + split; [exact Ht|]. split; [lia|]. split; [exact Hstep|constructor].
    + split; [exact Ht|]. split; [lia|]. split; [exact Hstep|].
      constructor; [|constructor]. intros c. discriminate.
  - destruct (res =? 0); unfold setSupport;
      rewrite (instruction_end _ Hlk); unfold in_step; cbn.
    + split; [exact Ht|]. split; [lia|]. split; [discriminate|constructor].
    + split; [exact Ht|]. split; [lia|]. split; [discriminate|].
      constructor; [|constructor]. intros c. discriminate.
Qed.

(** X3.  A diagnostic that carries an instruction carries the number, counted
    from 1, of the line the instruction was read from, and [format] prints
    that line as it stands in the file, less its last character (a line
    that is only a line break is printed as [emp]). *)
Theorem diagnostic_points_at_its_line lines input e x m args :
  Seta_run lines input = Some e ->
  In x (errors (final e)) ->
  code x = Some (m, args) ->
  exists l,
    lines !! (Z.to_nat (lineno x) - 1)%nat = Some l
    /\ (instruction {| text := [l]; pointer := 0 |}).1 = Some (m, args)
    /\ (((l = newline \/ l = newline_cr) /\ m = "emp" /\ args = [])
        \/ forall msg file,
             format x msg file =
               "seta.env.SetaCore.SetaException at line "
               ++ pretty (lineno x) ++ ":" ++ newline
               ++ "    In file " ++ file ++ ", line " ++ pretty (lineno x)
               ++ ":" ++ newline
               ++ "        " ++ PyStr.drop_last l ++ newline
               ++ clsname x ++ ": " ++ msg ++ newline).
Proof.
  intros Hrun Hin Hcode.
  pose proof (run_loop_invariant (in_step lines) (in_step_next lines)
                (in_step_exit lines) (in_step_raised lines) _ _ _
                (Seta_init_in_step lines input) Hrun) as (_ & _ & _ & He).
  rewrite Forall_forall in He. apply list_elem_of_In in Hin.
  destruct (He x Hin _ Hcode) as (_ & l & Hl & Hp).
  exists l. split; [exact Hl|]. split; [exact Hp|].
  destruct (parsed_quotes _ _ _ Hp) as [H|H]; [left; exact H|right].
  intros msg file. unfold format. rewrite Hcode, H. reflexivity.
Qed.

End Location.

(** *** Invariants of the namespace and of the pointer *)

Section Invariants.
Context {T : PyTypes} {P : Python}.

Implicit Types (rt : SetaRuntime) (args : list string) (com : string).

(** One iteration relates the runtime before and after the handler by
    whatever relates them across every handler. *)
Lemma cycle_relates (Q : SetaRuntime -> SetaRuntime -> Prop) :
  (forall rt, Q rt rt) ->
  (forall rt cls rt', Q rt rt' -> Q rt (report cls rt')) ->
  (forall rt x, Q rt (set_ifs x rt)) ->
  (forall args rt, Q rt (outcome_rt (com_endif args rt))) ->
  (forall args rt, Q rt (outcome_rt (com_set args rt))) ->
  (forall args rt, Q rt (outcome_rt (com_calc args rt))) ->
  (forall args rt, Q rt (outcome_rt (com_load args rt))) ->
  (forall args rt, Q rt (outcome_rt (com_emp args rt))) ->
  (forall args rt, Q rt (outcome_rt (com_if args rt))) ->
  (forall args rt, Q rt (outcome_rt (com_call args rt))) ->
  forall rt rt',
    (cycle rt = Next rt' -> exists rt'', rt' = advance rt'' /\ Q rt rt'')
    /\ (cycle rt = Traceback rt' -> Q rt rt').
Proof.
  intros Hrefl Hrep Hifs H1 H2 H3 H4 H5 H6 H7 rt rt'.
  assert (Hg : forall o,
             Q rt (outcome_rt o) ->
             (guarded o = Next rt' ->
              exists rt'', rt' = advance rt'' /\ Q rt rt'')
             /\ (guarded o = Traceback rt' -> Q rt rt')).
  { intros [r|r|r] Hq; cbn [guarded outcome_rt] in *; split;
      try discriminate; intros [= <-]; eauto. }
  unfold cycle. destruct (negb (status rt =? 0)); [split; discriminate|].
  destruct (current_code rt) as [[com args]|]; [|split; discriminate].
  repeat match goal with
         | |- context [if ?b then _ else _] => destruct b
         end;
    try (apply Hg; auto);
    split; try discriminate; intros [= <-]; eauto.
Qed.

(** **** Kinds *)

(** The value of a variable fits its kind: a string in a StringConst
    variable, anything but a string in a Numeric one. *)
Definition kind_ok (var : SetaVariable) : Prop :=
  is_str (var_value var) = negb (var_numeric var).

(** Every entry is filed under its own name and fits its kind. *)
Definition well_kinded (ns : gmap string SetaVariable) : Prop :=
  forall k var, ns !! k = Some var -> var_name var = k /\ kind_ok var.

Lemma well_kinded_insert ns k var :
  well_kinded ns -> var_name var = k -> kind_ok var ->
  well_kinded (<[k := var]> ns).
Proof.
  intros Hwk Hn Hk k' var'. rewrite lookup_insert. case_decide.
  - intros [= <-]. subst. auto.
  - apply Hwk.
Qed.

Lemma Variable_set_eq var v rt :
  Variable_set var v rt =
    if Bool.eqb (is_str v) (negb (var_numeric var))
    then (true, with_value var v, rt)
    else (false, var, report "ValueException" rt).
Proof.
  unfold Variable_set, var_numeric. destruct (is_str v), (var_type var);
    reflexivity.
Qed.

Lemma kind_ok_with_value var v :
  Bool.eqb (is_str v) (negb (var_numeric var)) = true ->
  kind_ok (with_value var v).
Proof. intros H. apply eqb_prop in H. exact H. Qed.

Definition keeps_kinds rt rt' : Prop :=
  well_kinded (namespace rt) -> well_kinded (namespace rt').

Ltac kinds_cases :=
  repeat match goal with
         | |- context [Variable_set ?a ?b ?c] =>
             rewrite (Variable_set_eq a b c)
         | |- context [match (match ?x with _ => _ end) with _ => _ end] =>
             destruct x eqn:?
         | |- context [match ?x with _ => _ end] => destruct x eqn:?
         end.

Ltac kinds_tac :=
  unfold keeps_kinds, report, error;
  cbn [outcome_rt namespace set_status set_namespace set_current set_ams
       set_ifs set_ptr set_errors set_stdio NamespaceInput store put];
  intros Hwk;
  repeat first [exact Hwk | apply well_kinded_insert];
  cbn [var_name with_value Variable_new];
  try reflexivity;
  try (apply kind_ok_with_value; assumption);
  try match goal with
      | H : Bool.eqb _ _ = false |- _ => cbn in H; discriminate H
      end;
  try match goal with
      | H : namespace _ !! ?k = Some ?v |- _ =>
          cbn [namespace set_ams set_stdio] in H;
          destruct (Hwk k v H) as [? ?]; assumption
      end.

Lemma com_endif_kinds args rt : keeps_kinds rt (outcome_rt (com_endif args rt)).
Proof. unfold com_endif. kinds_cases; kinds_tac. Qed.

Lemma com_emp_kinds args rt : keeps_kinds rt (outcome_rt (com_emp args rt)).
Proof. unfold com_emp. kinds_cases; kinds_tac. Qed.

Lemma com_if_kinds args rt : keeps_kinds rt (outcome_rt (com_if args rt)).
Proof. unfold com_if. kinds_cases; kinds_tac. Qed.

Lemma com_load_kinds args rt : keeps_kinds rt (outcome_rt (com_load args rt)).
Proof. unfold com_load. kinds_cases; kinds_tac. Qed.

Lemma com_set_kinds args rt : keeps_kinds rt (outcome_rt (com_set args rt)).
Proof.
  unfold com_set. kinds_cases; kinds_tac.
Qed.

Lemma com_calc_kinds args rt : keeps_kinds rt (outcome_rt (com_calc args rt)).
Proof.
  unfold com_calc, NamespaceSearch. kinds_cases; simplify_eq; kinds_tac.
Qed.

Lemma com_call_kinds args rt : keeps_kinds rt (outcome_rt (com_call args rt)).
Proof.
  unfold com_call, invoke, builtin_display, builtin_ftc, builtin_wrap,
    builtin_nInput, builtin_breakpoint, NamespaceSearch.
  kinds_cases; simplify_eq; kinds_tac.
Qed.

Lemma cycle_kinds rt rt' :
  well_kinded (namespace rt) ->
  (cycle rt = Next rt' \/ cycle rt = Exit rt' \/ cycle rt = Traceback rt') ->
  well_kinded (namespace rt').
Proof.
  intros Hwk.
  pose proof (cycle_relates keeps_kinds) as H.
  destruct (H (fun _ Hk => Hk) (fun _ _ _ Hk => Hk) (fun _ _ Hk => Hk)
              com_endif_kinds com_set_kinds com_calc_kinds com_load_kinds
              com_emp_kinds com_if_kinds com_call_kinds rt rt') as [HN HT].
  intros [Hc|[Hc|Hc]].
  - destruct (HN Hc) as (rt'' & -> & Hk).
    destruct (advance_frame rt'') as (_ & -> & _). exact (Hk Hwk).
  - apply cycle_exit in Hc as [[_ ->]|(_ & _ & ->)]; [exact Hwk|].
    destruct (negb (ifs rt =? 0)); exact Hwk.
  - exact (HT Hc Hwk).
Qed.

(** X4.  The kind discipline is an invariant of [run]: started on a
    namespace where every variable is filed under its own name and holds a
    value of its kind, [run] ends on such a namespace.  A Numeric variable
    never comes to hold a string, nor a StringConst variable anything but
    a string, whatever the program does. *)
Theorem run_keeps_kinds rt :
  well_kinded (namespace rt) ->
  exists e, run rt = Some e /\ well_kinded (namespace (final e)).
Proof.
  intros Hwk. destruct (run_total rt) as [e He]. exists e.
  split; [exact He|].
  apply (run_loop_invariant (fun r => well_kinded (namespace r))
           (fun r r' Hk Hc => cycle_kinds r r' Hk (or_introl Hc))
           (fun r r' Hk Hc => cycle_kinds r r' Hk (or_intror (or_introl Hc)))
           (fun r r' Hk Hc => cycle_kinds r r' Hk (or_intror (or_intror Hc)))
           _ _ _ Hwk He).
Qed.

(** **** The pointer *)

Definition pointer_ok rt : Prop :=
  packages rt = {[ "builtins" := BuiltinsPackage ]}
  /\ exists o, ptr rt = Some o
               /\ (o = NullPointerTraceback \/ exists b, o = BuiltinMethod b).

Definition keeps_pointer rt rt' : Prop := pointer_ok rt -> pointer_ok rt'.

Lemma builtins_methods i o :
  BuiltinsPackage !! i = Some o -> exists b, o = BuiltinMethod b.
Proof.
  unfold BuiltinsPackage. rewrite !lookup_insert.
  repeat case_decide; intros [= <-]; eauto.
Qed.

Ltac pointer_tac :=
  unfold keeps_pointer; cbn [outcome_rt]; intros Hp; try exact Hp.

Lemma com_endif_pointer args rt :
  keeps_pointer rt (outcome_rt (com_endif args rt)).
Proof. unfold com_endif. kinds_cases; pointer_tac. Qed.

Lemma com_emp_pointer args rt : keeps_pointer rt (outcome_rt (com_emp args rt)).
Proof. unfold com_emp. kinds_cases; pointer_tac. Qed.

Lemma com_if_pointer args rt : keeps_pointer rt (outcome_rt (com_if args rt)).
Proof. unfold com_if. kinds_cases; pointer_tac. Qed.

Lemma com_set_pointer args rt : keeps_pointer rt (outcome_rt (com_set args rt)).
Proof. unfold com_set. kinds_cases; pointer_tac. Qed.

Lemma com_calc_pointer args rt :
  keeps_pointer rt (outcome_rt (com_calc args rt)).
Proof. unfold com_calc. kinds_cases; simplify_eq; pointer_tac. Qed.

Lemma com_call_pointer args rt :
  keeps_pointer rt (outcome_rt (com_call args rt)).
Proof.
  unfold com_call, invoke, builtin_display, builtin_ftc, builtin_wrap,
    builtin_nInput, builtin_breakpoint.
  kinds_cases; simplify_eq; pointer_tac.
Qed.

Lemma com_load_pointer args rt :
  keeps_pointer rt (outcome_rt (com_load args rt)).
Proof.
  unfold com_load, PackageSearch, ObjectSearch. kinds_cases; pointer_tac.
  all: destruct Hp as [Hpk _]; split; [exact Hpk|];
    eexists; (split; [reflexivity|]); right;
    match goal with
    | H : packages _ !! _ = Some _ |- _ =>
        rewrite Hpk in H; apply lookup_singleton_Some in H as [_ <-]
    end; eauto using builtins_methods.
Qed.

Lemma cycle_pointer rt rt' :
  pointer_ok rt -> cycle rt = Next rt' -> pointer_ok rt'.
Proof.
  intros Hp Hc.
  pose proof (cycle_relates keeps_pointer) as H.
  destruct (H (fun _ Hk => Hk) (fun _ _ _ Hk => Hk) (fun _ _ Hk => Hk)
              com_endif_pointer com_set_pointer com_calc_pointer
              com_load_pointer com_emp_pointer com_if_pointer
              com_call_pointer rt rt') as [HN _].
  destruct (HN Hc) as (rt'' & -> & Hk). specialize (Hk Hp).
  unfold pointer_ok, advance in *. destruct (instruction _). exact Hk.
Qed.

(** X5.  In every runtime the loop reaches from the start of a program, the
    registry is the one built at start-up and the pointer holds the
    null-pointer handler or a method of the builtins package: [call] always
    invokes the pointer, and never reports that it is unset or not
    callable. *)
Theorem pointer_always_callable lines input n rt :
  cycles n (Seta_init lines input) = Some rt ->
  packages rt = {[ "builtins" := BuiltinsPackage ]}
  /\ exists o,
       ptr rt = Some o
       /\ (o = NullPointerTraceback \/ exists b, o = BuiltinMethod b)
       /\ callable o = true
       /\ forall args, com_call args rt = invoke o args rt.
Proof.
  intros Hr.
  assert (H0 : pointer_ok (Seta_init lines input)).
  { unfold Seta_init, SetaStringOperationCode_init, setSupport, pointer_ok.
    destruct (precheck _) as [res sup].
    destruct (res =? 0); destruct (instruction sup); cbn; eauto. }
  destruct (cycles_invariant pointer_ok cycle_pointer _ _ _ H0 Hr)
    as (Hpk & o & Ho & Hkind).
  split; [exact Hpk|]. exists o. split; [exact Ho|]. split; [exact Hkind|].
  assert (Hc : callable o = true)
    by (destruct Hkind as [->|[b ->]]; reflexivity).
  split; [exact Hc|]. intros args. unfold com_call. rewrite Ho, Hc.
  reflexivity.
Qed.

End Invariants.

(** *** Instructions one by one *)

(** The number of arguments each handler's signature admits. *)
Definition arity_ok (mnemonic : string) (n : nat) : bool :=
  if String.eqb mnemonic "set" then (3 <=? n)%nat
  else if String.eqb mnemonic "calc" then (n =? 4)%nat
  else if String.eqb mnemonic "load" then ((n =? 1) || (n =? 2))%nat
  else if String.eqb mnemonic "emp" then (n =? 0)%nat
  else if String.eqb mnemonic "if" then (n =? 3)%nat
  else if String.eqb mnemonic "endif" then (n =? 0)%nat
  else true.

Section Instructions.
Context {T : PyTypes} {P : Python}.

Implicit Types (rt : SetaRuntime) (args : list string) (com : string).

(** X6.  An instruction given a number of arguments its handler does not
    take ([set] fewer than three, [calc] other than four, [load] none or
    more than two, [if] other than three, [emp] or [endif] any) reports
    [ArgumentException] and changes nothing else but the program counter.
    For [endif] this holds while skipping too. *)
Theorem wrong_argument_count rt com args :
  status rt = RUNTIME_STATUS_RUNNING ->
  ifs rt = 0 \/ PyStr.lower com = "endif" ->
  current_code rt = Some (com, args) ->
  arity_ok (PyStr.lower com) (length args) = false ->
  cycle rt = Next (advance (report "ArgumentException" rt)).
Proof.
  intros Hs Hi Hc Ha. unfold cycle. rewrite Hs, Hc. cbn [negb Z.eqb].
  cbv zeta. unfold arity_ok in Ha.
  destruct (String.eqb (PyStr.lower com) "endif") eqn:Hendif.
  { apply String.eqb_eq in Hendif. rewrite Hendif in Ha. cbn in Ha.
    destruct args; [discriminate|reflexivity]. }
  destruct Hi as [Hi|Hi]; [|rewrite Hi in Hendif; discriminate].
  rewrite Hi. cbn [Z.eqb negb].
  destruct (String.eqb (PyStr.lower com) "set").
  { destruct args as [|? [|? [|? ?]]]; try discriminate; reflexivity. }
  destruct (String.eqb (PyStr.lower com) "calc").
  { destruct args as [|? [|? [|? [|? [|? ?]]]]]; try discriminate;
      reflexivity. }
  destruct (String.eqb (PyStr.lower com) "load").
  { destruct args as [|? [|? [|? ?]]]; try discriminate; reflexivity. }
  destruct (String.eqb (PyStr.lower com) "emp").
  { destruct args; [discriminate|reflexivity]. }
  destruct (String.eqb (PyStr.lower com) "if").
  { destruct args as [|? [|? [|? [|? ?]]]]; try discriminate; reflexivity. }
  discriminate.
Qed.

Lemma requireReal_not_str r v : requireReal r = Some v -> is_str v = false.
Proof.
  unfold requireReal. destruct (py_eval r) as [|[]|]; intros [= <-];
    reflexivity.
Qed.

Lemma requireReal_not_None r v : requireReal r = Some v -> v <> VNone.
Proof.
  unfold requireReal. destruct (py_eval r) as [|[]|]; intros [= <-];
    discriminate.
Qed.

Lemma identifier_not_AMS name :
  requireIdentifier name = true -> String.eqb name "@AMS" = false.
Proof.
  intros H. apply String.eqb_neq. intros ->. discriminate.
Qed.

Lemma resolve_variable name var rt :
  requireReal name = None ->
  String.eqb name "@AMS" = false ->
  namespace rt !! name = Some var ->
  resolve name rt = Some (var_value var).
Proof.
  intros Hr Ha Hn. unfold resolve, NamespaceSearch. rewrite Hr, Ha, Hn.
  reflexivity.
Qed.

Lemma resolve_advance arg rt : resolve arg (advance rt) = resolve arg rt.
Proof.
  unfold resolve, NamespaceSearch.
  destruct (advance_frame rt) as (_ & -> & -> & _). reflexivity.
Qed.

(** X7.  What [set] declares can be read back.  In the Executing state,
    for a valid name that Python does not itself evaluate to a number:
    after [set numeric name lit] with [lit] a number, the operand [name]
    resolves to that number; after [set cstring name word ...], it resolves
    to the words joined by single spaces.  Either way the previous binding
    of [name], of whatever kind, is replaced, no other name changes and
    nothing is reported. *)
Theorem set_then_resolve rt com name lit texts :
  executing rt ->
  PyStr.lower com = "set" ->
  requireIdentifier name = true ->
  requireReal name = None ->
  (forall v,
      current_code rt = Some (com, ["numeric"; name; lit]) ->
      requireReal lit = Some v ->
      exists rt',
        cycle rt = Next rt'
        /\ resolve name rt' = Some v
        /\ namespace rt' !! name =
             Some {| var_name := name; var_type := VARIABLE_NUMERIC;
                     var_value := v |}
        /\ (forall k, k <> name -> namespace rt' !! k = namespace rt !! k)
        /\ errors rt' = errors rt)
  /\ (current_code rt = Some (com, "cstring" :: name :: lit :: texts) ->
      exists rt',
        cycle rt = Next rt'
        /\ resolve name rt' = Some (VStr (PyStr.join (lit :: texts)))
        /\ namespace rt' !! name =
             Some {| var_name := name; var_type := VARIABLE_STRING_CONST;
                     var_value := VStr (PyStr.join (lit :: texts)) |}
        /\ (forall k, k <> name -> namespace rt' !! k = namespace rt !! k)
        /\ errors rt' = errors rt).
Proof.
  intros He Hl Hid Hname.
  pose proof (identifier_not_AMS _ Hid) as Hams.
  split.
  - intros v Hc Hv. rewrite (cycle_set _ _ _ He Hc Hl).
    unfold com_set. rewrite Hid, Hv. cbn [negb String.eqb].
    change (String.eqb "numeric" "numeric") with true. cbv iota.
    rewrite Variable_set_eq. cbn [var_numeric Variable_new var_type negb].
    rewrite (requireReal_not_str _ _ Hv). cbn [Bool.eqb guarded].
    eexists. split; [reflexivity|].
    rewrite resolve_advance.
    destruct (advance_frame (NamespaceInput
      (with_value (Variable_new name VARIABLE_NUMERIC) v) rt))
      as (_ & -> & _ & _ & _ & ->).
    cbn. split.
    { apply (resolve_variable name
               (with_value (Variable_new name VARIABLE_NUMERIC) v) _
               Hname Hams).
      cbn. apply lookup_insert_eq. }
    split; [apply lookup_insert_eq|]. split; [|reflexivity].
    intros k Hk. apply lookup_insert_ne. congruence.
  - intros Hc. rewrite (cycle_set _ _ _ He Hc Hl).
    unfold com_set. rewrite Hid. cbn [negb].
    change (String.eqb "cstring" "numeric") with false.
    change (String.eqb "cstring" "cstring") with true. cbv iota.
    rewrite Variable_set_eq. cbn [guarded].
    eexists. split; [reflexivity|].
    rewrite resolve_advance.
    destruct (advance_frame (NamespaceInput
      (with_value (Variable_new name VARIABLE_STRING_CONST)
         (VStr (PyStr.join (lit :: texts)))) rt))
      as (_ & -> & _ & _ & _ & ->).
    cbn. split.
    { apply (resolve_variable name
               (with_value (Variable_new name VARIABLE_STRING_CONST)
                  (VStr (PyStr.join (lit :: texts)))) _ Hname Hams).
      cbn. apply lookup_insert_eq. }
    split; [apply lookup_insert_eq|]. split; [|reflexivity].
    intros k Hk. apply lookup_insert_ne. congruence.
Qed.

Lemma of_number_number (n : number) : is_number (of_number n) = true.
Proof. destruct n; reflexivity. Qed.

Lemma operator_number op oper a b q :
  operation_table op = Some oper ->
  is_number a = true -> is_number b = true ->
  oper a b = Returns q ->
  is_number q = true.
Proof.
  unfold operation_table.
  repeat match goal with
         | |- context [if ?c then _ else _] => destruct c
         end; intros [= <-] Ha Hb;
    unfold operator_add, operator_sub, operator_mul, operator_truediv,
      operator_pow, numeric;
    destruct a, b; try discriminate; cbn [is_number andb];
    repeat match goal with
           | |- context [match ?x with _ => _ end] => destruct x
           end;
    intros [= <-]; first [reflexivity | apply of_number_number].
Qed.

Lemma number_not_str q : is_number q = true -> is_str q = false /\ q <> VNone.
Proof. destruct q; try discriminate; split; (reflexivity || discriminate). Qed.

(** X8.  What [calc] computes can be read back, for each of the five
    operations.  In the Executing state, when both operands resolve to
    numbers, neither zero guard applies, the result name is valid, is not
    itself a number for Python and is absent or bound to a Numeric
    variable, and Python's operator returns [q]: after the instruction both
    [@AMS] and the result name resolve to [q], nothing is reported and no
    other name changes. *)
Theorem calc_then_resolve rt com op oper a b r va vb q :
  executing rt ->
  PyStr.lower com = "calc" ->
  current_code rt = Some (com, [op; a; b; r]) ->
  operation_table op = Some oper ->
  resolve a rt = Some va ->
  resolve b rt = Some vb ->
  is_number va = true ->
  is_number vb = true ->
  String.eqb op "div" && py_eq vb (VInt 0) = false ->
  String.eqb op "power" && (py_eq va vb && py_eq vb (VInt 0)) = false ->
  requireIdentifier r = true ->
  requireReal r = None ->
  (forall var, namespace rt !! r = Some var -> var_numeric var = true) ->
  oper va vb = Returns q ->
  exists rt',
    cycle rt = Next rt'
    /\ ams rt' = q
    /\ resolve "@AMS" rt' = Some q
    /\ resolve r rt' = Some q
    /\ errors rt' = errors rt
    /\ forall k, k <> r -> namespace rt' !! k = namespace rt !! k.
Proof.
  intros He Hl Hc Hop Ha Hb Hna Hnb Hdiv Hpow Hid Hr Hnum Hq.
  destruct (number_not_str q (operator_number _ _ _ _ _ Hop Hna Hnb Hq))
    as [Hstr Hnone].
  rewrite (cycle_calc _ _ _ He Hc Hl). unfold com_calc.
  rewrite Hop, Ha, Hb.
  change OPERATION_DIV with "div". change OPERATION_POWER with "power".
  rewrite Hdiv, Hpow, Hid, Hq. cbn [negb]. unfold NamespaceSearch.
  cbn [namespace set_ams].
  assert (Hres : forall ns rt0,
             namespace rt0 = <[r := ns]> (namespace rt) ->
             ams rt0 = q -> errors rt0 = errors rt -> var_value ns = q ->
             ams (advance rt0) = q
             /\ resolve "@AMS" (advance rt0) = Some q
             /\ resolve r (advance rt0) = Some q
             /\ errors (advance rt0) = errors rt
             /\ forall k, k <> r ->
                  namespace (advance rt0) !! k = namespace rt !! k).
  { intros ns rt0 Hns Hams Herr Hval.
    rewrite !resolve_advance.
    destruct (advance_frame rt0) as (_ & -> & -> & _ & _ & ->).
    split; [exact Hams|]. split.
    { unfold resolve. cbn [String.eqb Ascii.eqb Bool.eqb]. rewrite Hams.
      destruct q; try reflexivity. contradiction. }
    split.
    { rewrite (resolve_variable r ns rt0 Hr (identifier_not_AMS _ Hid)).
      - rewrite Hval. reflexivity.
      - rewrite Hns. apply lookup_insert_eq. }
    split; [exact Herr|].
    intros k Hk. rewrite Hns. apply lookup_insert_ne. congruence. }
  destruct (namespace rt !! r) as [var|] eqn:Hlk.
  - rewrite Variable_set_eq, Hstr, (Hnum var eq_refl). cbn [negb Bool.eqb].
    cbn [guarded]. eexists. split; [reflexivity|].
    apply (Hres (with_value var q)); reflexivity.
  - cbn [Variable_new]. rewrite Variable_set_eq, Hstr.
    cbn [negb Bool.eqb guarded var_numeric var_type].
    eexists. split; [reflexivity|].
    apply (Hres (with_value (Variable_new r VARIABLE_NUMERIC) q));
      try reflexivity.
    cbn. apply insert_insert_eq.
Qed.

(** X9.  A [call] cannot disturb the machine: whatever the pointer holds
    and whatever the arguments, it leaves [@AMS], the skip depth, the
    pointer, the registry and the program counter as they were, and it can
    change the namespace only at the name given as first argument, and only
    when the pointer holds [ftc] or [nInput]. *)
Theorem call_touches_one_variable args rt :
  let rt' := outcome_rt (com_call args rt) in
  ams rt' = ams rt
  /\ ifs rt' = ifs rt
  /\ ptr rt' = ptr rt
  /\ packages rt' = packages rt
  /\ current_code rt' = current_code rt
  /\ support rt' = support rt
  /\ (forall k, head args <> Some k ->
               namespace rt' !! k = namespace rt !! k)
  /\ (ptr rt <> Some (BuiltinMethod ftc) ->
      ptr rt <> Some (BuiltinMethod nInput) ->
      namespace rt' = namespace rt).
Proof.
  unfold com_call, invoke, builtin_display, builtin_ftc, builtin_wrap,
    builtin_nInput, builtin_breakpoint.
  cases_tac; simplify_eq;
    unfold report, error;
    cbn [outcome_rt ams ifs ptr packages current_code support namespace
         set_status set_namespace set_current set_ams set_ifs set_ptr
         set_errors set_stdio NamespaceInput store put head];
    repeat match goal with |- _ /\ _ => split end;
    try reflexivity; try (intros; reflexivity);
    try (intros k Hk; apply lookup_insert_ne; congruence);
    try (intros; congruence).
Qed.

End Instructions.

(** *** Reading lines *)

Lemma line_not_blank (s : string) :
  s <> "" ->
  String.eqb (line s) "" = false
  /\ String.eqb (line s) newline = false
  /\ String.eqb (line s) newline_cr = false.
Proof.
  intros Hs. unfold line, newline, newline_cr.
  destruct s as [|c [|d [|e s]]]; [contradiction|..];
    rewrite ?append_cons, ?append_nil;
    (split; [|split]); apply String.eqb_neq; congruence.
Qed.

(** X10.  Writing an instruction out and reading it back gives the same
    instruction: a mnemonic and arguments without spaces, joined by single
    spaces and ended by a line break, are read by [instruction] as that
    mnemonic and those arguments, and the pointer moves by one line.  (The
    empty mnemonic alone would be the blank line, read as [emp].) *)
Theorem instruction_of_tokens sup m args :
  forallb no_space (m :: args) = true ->
  PyStr.join (m :: args) <> "" ->
  text sup !! pointer sup = Some (line (PyStr.join (m :: args))) ->
  instruction sup = (Some (m, args), bump sup).
Proof.
  intros Hsp Hne Hl. unfold instruction. rewrite Hl.
  destruct (line_not_blank _ Hne) as (-> & -> & ->). cbn [orb].
  rewrite drop_last_line, split_join by (discriminate || exact Hsp).
  destruct args; reflexivity.
Qed.

Section Builtins.
Context {T : PyTypes} {P : Python}.

Implicit Types (rt : SetaRuntime) (args : list string) (com : string).

(** *** [nInput] *)

Lemma nInput_loop_rejects msg bad inp out :
  Forall (fun i => requireReal i = None) bad ->
  nInput_loop msg (bad ++ inp) out =
    nInput_loop msg inp (out ++ map (fun _ => OutText msg) bad).
Proof.
  intros Hbad. revert out. induction Hbad as [|i bad Hi _ IH]; intros out.
  - cbn. rewrite app_nil_r. reflexivity.
  - cbn [app nInput_loop map]. rewrite Hi, IH, <- app_assoc. reflexivity.
Qed.

(** The prompt [nInput] repeats. *)
Definition prompt (msg : list string) : string :=
  match msg with
  | [] => "Input requires to be numeric, please enter again:"
  | _ => PyStr.join msg
  end.

(** X11.  [nInput] on a Numeric variable reads the terminal up to the first
    line that is a number: it stores that number in the variable, leaves
    the lines after it unread, and has written its prompt once for every
    line it rejected.  If no line is a number it uses up the input and the
    run is left by the exception [input] raises, the variable unchanged. *)
Theorem nInput_reads_to_first_number rt arg msg var bad :
  ptr rt = Some (BuiltinMethod nInput) ->
  requireIdentifier arg = true ->
  namespace rt !! arg = Some var ->
  var_numeric var = true ->
  Forall (fun i => requireReal i = None) bad ->
  (forall good rest v,
      requireReal good = Some v ->
      stdin rt = (bad ++ good :: rest)%list ->
      exists rt',
        com_call (arg :: msg) rt = Done rt'
        /\ stdin rt' = rest
        /\ stdout rt' =
             (stdout rt ++ map (fun _ => OutText (prompt msg)) bad)%list
        /\ namespace rt' !! arg = Some (with_value var v)
        /\ errors rt' = errors rt)
  /\ (stdin rt = bad ->
      exists rt',
        com_call (arg :: msg) rt = Raised rt'
        /\ stdin rt' = []
        /\ stdout rt' =
             (stdout rt ++ map (fun _ => OutText (prompt msg)) bad)%list
        /\ namespace rt' = namespace rt
        /\ errors rt' = errors rt).
Proof.
  intros Hp Hid Hn Hnum Hbad.
  assert (Hty : var_type var = VARIABLE_NUMERIC).
  { unfold var_numeric in Hnum. destruct (var_type var);
      [reflexivity|discriminate]. }
  assert (Hcall : com_call (arg :: msg) rt = builtin_nInput (arg :: msg) rt).
  { unfold com_call. rewrite Hp. reflexivity. }
  rewrite Hcall. unfold builtin_nInput, NamespaceSearch.
  rewrite Hid, Hn, Hty. cbn [negb]. fold (prompt msg). split.
  - intros good rest v Hv Hin. rewrite Hin.
    rewrite (nInput_loop_rejects _ _ _ _ Hbad). cbn [nInput_loop].
    rewrite Hv, Variable_set_eq, Hnum, (requireReal_not_str _ _ Hv).
    cbn [negb Bool.eqb]. eexists. split; [reflexivity|].
    cbn. repeat split. apply lookup_insert_eq.
  - intros Hin. rewrite Hin.
    pose proof (nInput_loop_rejects (prompt msg) bad [] (stdout rt) Hbad)
      as Hrej.
    rewrite app_nil_r in Hrej. rewrite Hrej. cbn [nInput_loop].
    eexists. split; [reflexivity|]. cbn. repeat split.
Qed.

End Builtins.

(** *** The [Operation] helpers beside [calc] *)

Section Helpers.
Context {T : PyTypes} {P : Python}.

Implicit Types (rt : SetaRuntime) (args : list string) (com : string).

(** The helper of [SetaRuntime.Operation] that goes by the name [calc]
    gives to an operation. *)
Definition Operation (operation : string)
  : option (SetaVariable -> SetaVariable -> SetaRuntime
            -> pyres * SetaRuntime) :=
  if String.eqb operation "add" then Some Operation_add
  else if String.eqb operation "sub" then Some Operation_sub
  else if String.eqb operation "mul" then Some Operation_mul
  else if String.eqb operation "div" then Some Operation_div
  else if String.eqb operation "power" then Some Operation_power
  else None.

(** [calc] on resolved numbers and a fresh, valid result name. *)
Lemma com_calc_fresh rt op oper a b r x y :
  operation_table op = Some oper ->
  resolve a rt = Some x ->
  resolve b rt = Some y ->
  is_number x = true ->
  is_number y = true ->
  String.eqb op "div" && py_eq y (VInt 0) = false ->
  String.eqb op "power" && (py_eq x y && py_eq y (VInt 0)) = false ->
  requireIdentifier r = true ->
  namespace rt !! r = None ->
  com_calc [op; a; b; r] rt =
    match oper x y with
    | Returns q =>
        Done (set_namespace
                (<[r := {| var_name := r; var_type := VARIABLE_NUMERIC;
                           var_value := q |}]> (namespace rt))
                (set_ams q rt))
    | RaisesTypeError => RaisedTypeError rt
    | Raises => Raised rt
    end.
Proof.
  intros Hop Ha Hb Hx Hy Hdiv Hpow Hid Hr. unfold com_calc.
  rewrite Hop, Ha, Hb.
  change OPERATION_DIV with "div". change OPERATION_POWER with "power".
  rewrite Hdiv, Hpow, Hid. cbn [negb].
  destruct (oper x y) as [q| |] eqn:Hq; try reflexivity.
  destruct (number_not_str q (operator_number _ _ _ _ _ Hop Hx Hy Hq))
    as [Hstr _].
  unfold NamespaceSearch. cbn [namespace set_ams]. rewrite Hr.
  rewrite Variable_set_eq, Hstr. cbn [negb Bool.eqb var_numeric var_type
    Variable_new]. unfold store, NamespaceInput.
  cbn [namespace set_namespace set_ams var_name with_value Variable_new
       var_type var_value].
  rewrite insert_insert_eq. reflexivity.
Qed.

(** X12.  For two declared Numeric variables holding numbers, the helper of
    [SetaRuntime.Operation] and the [calc] instruction agree.  Where the
    helper reports [MathException] and returns [None], so does [calc], and
    leaves the same runtime; where the helper returns a value without
    reporting, [calc] stores that value in [@AMS] and in the fresh result
    variable; where Python's operator raises in the helper, it raises in
    [calc]. *)
Theorem calc_agrees_with_Operation rt op helper a b r va vb :
  Operation op = Some helper ->
  namespace rt !! a = Some va ->
  namespace rt !! b = Some vb ->
  requireReal a = None ->
  requireReal b = None ->
  String.eqb a "@AMS" = false ->
  String.eqb b "@AMS" = false ->
  var_numeric va = true ->
  var_numeric vb = true ->
  is_number (var_value va) = true ->
  is_number (var_value vb) = true ->
  requireIdentifier r = true ->
  namespace rt !! r = None ->
  match helper va vb rt with
  | (Returns VNone, rt1) =>
      rt1 = report "MathException" rt
      /\ com_calc [op; a; b; r] rt = Done rt1
  | (Returns q, rt1) =>
      rt1 = rt
      /\ com_calc [op; a; b; r] rt =
           Done (set_namespace
                   (<[r := {| var_name := r; var_type := VARIABLE_NUMERIC;
                              var_value := q |}]> (namespace rt))
                   (set_ams q rt))
  | (RaisesTypeError, rt1) =>
      rt1 = rt /\ com_calc [op; a; b; r] rt = RaisedTypeError rt
  | (Raises, rt1) =>
      rt1 = rt /\ com_calc [op; a; b; r] rt = Raised rt
  end.
Proof.
  intros Hop Hna Hnb Hra Hrb Haa Hab Hva Hvb Hx Hy Hid Hr.
  pose proof (resolve_variable a va rt Hra Haa Hna) as Ha.
  pose proof (resolve_variable b vb rt Hrb Hab Hnb) as Hb.
  assert (Hplain : forall oper,
             operation_table op = Some oper ->
             String.eqb op "div" && py_eq (var_value vb) (VInt 0) = false ->
             String.eqb op "power"
               && (py_eq (var_value va) (var_value vb)
                   && py_eq (var_value vb) (VInt 0)) = false ->
             match (oper (var_value va) (var_value vb), rt) with
             | (Returns VNone, rt1) =>
                 rt1 = report "MathException" rt
                 /\ com_calc [op; a; b; r] rt = Done rt1
             | (Returns q, rt1) =>
                 rt1 = rt
                 /\ com_calc [op; a; b; r] rt =
                      Done (set_namespace
                              (<[r := {| var_name := r;
                                         var_type := VARIABLE_NUMERIC;
                                         var_value := q |}]> (namespace rt))
                              (set_ams q rt))
             | (RaisesTypeError, rt1) =>
                 rt1 = rt /\ com_calc [op; a; b; r] rt = RaisedTypeError rt
             | (Raises, rt1) =>
                 rt1 = rt /\ com_calc [op; a; b; r] rt = Raised rt
             end).
  { intros oper Htab Hdiv Hpow.
    rewrite (com_calc_fresh rt op oper a b r _ _ Htab Ha Hb Hx Hy Hdiv Hpow
               Hid Hr).
    destruct (oper (var_value va) (var_value vb)) as [q| |] eqn:Hq; auto.
    destruct (number_not_str q (operator_number _ _ _ _ _ Htab Hx Hy Hq))
      as [_ Hnone].
    destruct q; try contradiction; auto. }
  unfold Operation in Hop.
  destruct (String.eqb op "add") eqn:E1.
  { apply String.eqb_eq in E1. subst op. injection Hop as <-.
    unfold Operation_add. rewrite Hva, Hvb. cbn [negb].
    apply Hplain; reflexivity. }
  destruct (String.eqb op "sub") eqn:E2.
  { apply String.eqb_eq in E2. subst op. injection Hop as <-.
    unfold Operation_sub. rewrite Hva, Hvb. cbn [negb].
    apply Hplain; reflexivity. }
  destruct (String.eqb op "mul") eqn:E3.
  { apply String.eqb_eq in E3. subst op. injection Hop as <-.
    unfold Operation_mul. rewrite Hva, Hvb. cbn [negb].
    apply Hplain; reflexivity. }
  destruct (String.eqb op "div") eqn:E4.
  { apply String.eqb_eq in E4. subst op. injection Hop as <-.
    unfold Operation_div. rewrite Hva, Hvb. cbn [negb].
    destruct (py_eq (var_value vb) (VInt 0)) eqn:Hz.
    - split; [reflexivity|].
      apply (com_calc_div_zero rt a b r _ _ Ha Hb Hz).
    - apply Hplain; reflexivity. }
  destruct (String.eqb op "power") eqn:E5; [|discriminate].
  apply String.eqb_eq in E5. subst op. injection Hop as <-.
  unfold Operation_power. rewrite Hva, Hvb. cbn [negb].
  destruct (py_eq (var_value va) (var_value vb)
            && py_eq (var_value vb) (VInt 0)) eqn:Hz.
  - split; [reflexivity|]. apply andb_prop in Hz as [Hz1 Hz2].
    apply (com_calc_power_zero rt a b r _ _ Ha Hb Hz1 Hz2).
  - apply Hplain; reflexivity.
Qed.

(** *** The policy after a diagnostic *)

(** X13.  The iteration that reports a diagnostic is the last one that does
    anything: it still moves the program counter, and the next iteration
    leaves [run] at the status check with the runtime untouched, so the
    instruction after a failing one is never executed. *)
Theorem halts_after_diagnostic rt rt' :
  cycle rt = Next rt' ->
  errors rt' <> errors rt ->
  status rt' = RUNTIME_STATUS_ERROR
  /\ current_lineno rt' = current_lineno rt + 1
  /\ cycle rt' = Exit rt'
  /\ forall fuel, run_loop (S fuel) rt' = Some (Exited rt').
Proof.
  intros (_ & _ & rt'' & -> & Hq & Hsingle)%cycle_contained Hne.
  destruct (advance_frame rt'') as (Hs & _ & _ & _ & _ & He).
  rewrite He in Hne.
  destruct Hsingle as [[Hsame _]|(cls & _ & Hst)]; [contradiction|].
  assert (Hst' : status (advance rt'') = RUNTIME_STATUS_ERROR)
    by (rewrite Hs; exact Hst).
  assert (Hc : cycle (advance rt'') = Exit (advance rt''))
    by (unfold cycle; rewrite Hst'; reflexivity).
  split; [exact Hst'|]. split.
  - destruct Hq as (_ & _ & Hl & _). rewrite <- Hl.
    unfold advance. destruct (instruction _). reflexivity.
  - split; [exact Hc|]. intros fuel. cbn [run_loop]. rewrite Hc. reflexivity.
Qed.

(** *** Starting up *)

(** X14.  When the path is not a file, the file cannot be opened, or the
    mode is not [SETA_SOC], exactly one [RunningException] is reported, at
    line 0 and without an instruction, and [run] returns at once: nothing
    is executed, the namespace is empty and nothing was written.  With a
    readable file and the mode [SETA_SOC], construction is the one that
    reads the header. *)
Theorem unreadable_source_stops_the_run path mode input :
  (path = Missing \/ path = Unreadable \/ mode <> SETA_SOC) ->
  let rt := Seta_new path mode input in
  errors rt = [{| clsname := "RunningException"; lineno := 0;
                  code := None |}]
  /\ status rt = RUNTIME_STATUS_ERROR
  /\ namespace rt = ∅
  /\ stdout rt = []
  /\ run rt = Some (Exited rt)
  /\ forall lines,
       Seta_new (Lines lines) SETA_SOC input = Seta_init lines input.
Proof.
  intros Hbad rt.
  assert (Hrt : rt = error running_exception (SetaRuntime_init input)).
  { subst rt. unfold Seta_new.
    destruct Hbad as [->|[->|Hm]]; [reflexivity|..].
    - destruct (mode =? SETA_SOC); reflexivity.
    - apply Z.eqb_neq in Hm. rewrite Hm. destruct path; reflexivity. }
  rewrite Hrt. repeat split.
Qed.

(** *** The registry *)

(** X15.  [ObjectAppend], [ObjectSearch] and [ObjectRemove] compose as a
    dictionary: an appended object is found under its key, a removed key
    is not found, each flag tells whether the key was present, other keys
    are not affected, and removing a key appended to a pool that lacked it
    gives the pool back. *)
Theorem package_pool_round_trip (key : string) (obj : object)
  (pool : gmap string object) :
  ObjectSearch key (ObjectAppend key obj pool).2 = Some obj
  /\ ((ObjectAppend key obj pool).1 = true
      <-> is_Some (ObjectSearch key pool))
  /\ ObjectSearch key (ObjectRemove key pool).2 = None
  /\ ((ObjectRemove key pool).1 = true <-> is_Some (ObjectSearch key pool))
  /\ (forall k, k <> key ->
        ObjectSearch k (ObjectAppend key obj pool).2 = ObjectSearch k pool
        /\ ObjectSearch k (ObjectRemove key pool).2 = ObjectSearch k pool)
  /\ (ObjectSearch key pool = None ->
      (ObjectRemove key (ObjectAppend key obj pool).2).2 = pool).
Proof.
  unfold ObjectSearch, ObjectAppend, ObjectRemove. cbn [fst snd].
  split; [apply lookup_insert_eq|].
  split; [apply bool_decide_eq_true|].
  split.
  { destruct (pool !! key) eqn:Hk; cbn [snd];
      [apply lookup_delete_eq|exact Hk]. }
  split.
  { destruct (pool !! key) eqn:Hk; cbn [fst]; split; intros H; eauto.
    - discriminate.
    - destruct H as [? H]. discriminate H. }
  split.
  { intros k Hk. split; [apply lookup_insert_ne; congruence|].
    destruct (pool !! key); cbn [snd];
      [apply lookup_delete_ne; congruence|reflexivity]. }
  intros Hk. rewrite lookup_insert_eq. cbn [snd].
  rewrite delete_insert_eq. apply delete_id. exact Hk.
Qed.

(** *** Numbers *)


(** X17.  For a Numeric variable holding an integer, exactly one of
    [positive], [negative] and [zero] is true; for a variable that is not
    Numeric all three are [None]; for a Numeric variable never assigned,
    [positive] and [negative] raise [TypeError] while [zero] is false. *)
Theorem variable_sign (var : SetaVariable) :
  (forall z,
      var_numeric var = true -> var_value var = VInt z ->
      Variable_positive var = Some (Some (0 <? z))
      /\ Variable_negative var = Some (Some (z <? 0))
      /\ Variable_zero var = Some (Some (z =? 0))
      /\ ((0 <? z) = true /\ (z <? 0) = false /\ (z =? 0) = false
          \/ (0 <? z) = false /\ (z <? 0) = true /\ (z =? 0) = false
          \/ (0 <? z) = false /\ (z <? 0) = false /\ (z =? 0) = true))
  /\ (var_numeric var = false ->
      Variable_positive var = Some None
      /\ Variable_negative var = Some None
      /\ Variable_zero var = Some None)
  /\ (var_numeric var = true -> var_value var = VNone ->
      Variable_positive var = None
      /\ Variable_negative var = None
      /\ Variable_zero var = Some (Some false)).
Proof.
  unfold Variable_positive, Variable_negative, Variable_zero.
  split; [|split].
  - intros z -> ->. cbn. repeat split.
    destruct (Z.ltb_spec 0 z), (Z.ltb_spec z 0), (Z.eqb_spec z 0);
      try lia; auto.
  - intros ->. auto.
  - intros -> ->. cbn. auto.
Qed.

End Helpers.

(** *** The header *)

Section Header.
Context {T : PyTypes} {P : Python}.

(** X18.  [precheck] judges the first line alone: its verdict is a code
    from 0 to 5 that does not depend on the lines after the first; it is 5
    exactly when there is no first line (or an empty one) and 0 exactly
    when the first line, less its last character, is [SETA-SOC] and a
    version [float] accepts that is not above the supported one.  It moves
    the pointer past the first line when there is one and never changes the
    lines. *)
Theorem precheck_verdict (lines : list string) :
  let res := (precheck {| text := lines; pointer := 0 |}).1 in
  let sup := (precheck {| text := lines; pointer := 0 |}).2 in
  text sup = lines
  /\ pointer sup = match lines with [] => 0%nat | _ => 1%nat end
  /\ 0 <= res <= 5
  /\ (res = 5 <-> head lines = None \/ head lines = Some "")
  /\ (res = 0 <-> header_ok lines)
  /\ (forall l rest rest',
        (precheck {| text := l :: rest; pointer := 0 |}).1
        = (precheck {| text := l :: rest'; pointer := 0 |}).1).
Proof.
  cbv zeta. split; [apply precheck_text|].
  split; [|split; [|split; [|split; [apply precheck_passes_iff|]]]].
  - unfold precheck. destruct lines as [|l rest]; [reflexivity|]. cbn.
    repeat match goal with
           | |- context [match ?x with _ => _ end] => destruct x
           end; reflexivity.
  - unfold precheck. destruct lines as [|l rest]; cbn; [lia|].
    repeat match goal with
           | |- context [match ?x with _ => _ end] => destruct x
           end; cbn; lia.
  - unfold precheck. destruct lines as [|l rest]; cbn.
    { split; auto. }
    destruct (String.eqb l "") eqn:Hl.
    { apply String.eqb_eq in Hl. subst l. cbn. split; auto. }
    apply String.eqb_neq in Hl.
    assert (Hno : ~ (None = Some l \/ Some l = Some "")).
    { intros [H|H]; [discriminate|]. injection H as ->. contradiction. }
    repeat match goal with
           | |- context [match ?x with _ => _ end] => destruct x
           end; cbn; split; try discriminate; intros [H|H];
      try discriminate; injection H as ->; contradiction.
  - intros l rest rest'. unfold precheck. cbn.
    repeat match goal with
           | |- context [match ?x with _ => _ end] => destruct x
           end; reflexivity.
Qed.

End Header.

(** ** More closed examples, on the reference instance *)

Section MoreExamples.
Import Exact.
#[local] Existing Instances Exact.types Exact.python.

(** The runtime after [n] iterations on a program, or the initial one. *)
Definition after (n : nat) (program input : list string) : SetaRuntime :=
  match cycles n (Seta_init (map line program) input) with
  | Some rt => rt
  | None => SetaRuntime_init input
  end.

(** [calc div 1 0 r] on line 3. *)
Lemma diagnostic_points_at_its_line_witness :
  let lines := map line ["SETA-SOC 1.0"; "set numeric x 5";
                         "calc div 1 0 r"] in
  let x := {| clsname := "MathException"; lineno := 3;
              code := Some ("calc", ["div"; "1"; "0"; "r"]) |} in
  exists e l,
    Seta_run lines [] = Some e
    /\ errors (final e) = [x]
    /\ lines !! 2%nat = Some l
    /\ (instruction {| text := [l]; pointer := 0 |}).1 = code x.
Proof.
  intros lines x.
  assert (Hrun : exists e, Seta_run lines [] = Some e
                           /\ errors (final e) = [x]).
  { eexists. split; [vm_compute; reflexivity|reflexivity]. }
  destruct Hrun as (e & Hrun & He).
  assert (Hin : In x (errors (final e))) by (rewrite He; left; reflexivity).
  destruct (diagnostic_points_at_its_line lines [] e x "calc"
              ["div"; "1"; "0"; "r"] Hrun Hin eq_refl) as (l & Hl & Hp & _).
  exists e, l. repeat split; assumption.
Defined.

(** A program that declares, computes and reads. *)
Lemma run_keeps_kinds_witness :
  let rt := start ["SETA-SOC 1.0"; "set numeric n 4"; "set cstring s a b";
                   "calc mul n n m"; "calc mul s 2 t"] in
  exists e, run rt = Some e /\ well_kinded (namespace (final e)).
Proof.
  intros rt. apply run_keeps_kinds.
  intros k var H. vm_compute in H. discriminate H.
Defined.

(** After [load display] and one more line. *)
Lemma pointer_always_callable_witness :
  exists rt,
    cycles 2 (Seta_init (map line ["SETA-SOC 1.0"; "load display";
                                   "load nosuch"; "call"]) []) = Some rt
    /\ ptr rt = Some (BuiltinMethod display)
    /\ forall args, com_call args rt = invoke (BuiltinMethod display) args rt.
Proof.
  eexists. split; [vm_compute; reflexivity|].
  match goal with
  | |- ptr ?r = _ /\ _ =>
      destruct (pointer_always_callable
                  (map line ["SETA-SOC 1.0"; "load display"; "load nosuch";
                             "call"]) [] 2 r)
        as (_ & o & Ho & _ & _ & Hcall); [vm_compute; reflexivity|]
  end.
  assert (Hd : o = BuiltinMethod display).
  { vm_compute in Ho. injection Ho as <-. reflexivity. }
  subst o. split; [reflexivity|exact Hcall].
Defined.

(** [calc] with two arguments. *)
Lemma wrong_argument_count_witness :
  let rt := start ["SETA-SOC 1.0"; "calc add 1"] in
  cycle rt = Next (advance (report "ArgumentException" rt)).
Proof.
  intros rt. apply (wrong_argument_count rt "calc" ["add"; "1"]);
    try reflexivity. left. reflexivity.
Defined.

(** [set numeric x 5]. *)
Lemma set_then_resolve_witness :
  let rt := start ["SETA-SOC 1.0"; "set numeric x 5"] in
  exists rt',
    cycle rt = Next rt' /\ resolve "x" rt' = Some (VInt 5).
Proof.
  intros rt.
  destruct (set_then_resolve rt "set" "x" "5" []) as [Hnum _];
    try reflexivity; [split; reflexivity|].
  destruct (Hnum (VInt 5) eq_refl eq_refl) as (rt' & Hc & Hr & _).
  exists rt'. split; assumption.
Defined.

(** [calc power 2 10 p]. *)
Lemma calc_then_resolve_witness :
  let rt := start ["SETA-SOC 1.0"; "calc power 2 10 p"] in
  exists rt',
    cycle rt = Next rt'
    /\ resolve "@AMS" rt' = Some (VInt 1024)
    /\ resolve "p" rt' = Some (VInt 1024).
Proof.
  intros rt.
  destruct (calc_then_resolve rt "calc" "power" operator_pow "2" "10" "p"
              (VInt 2) (VInt 10) (VInt 1024))
    as (rt' & Hc & _ & Ha & Hp & _);
    try reflexivity; [split; reflexivity|discriminate|].
  exists rt'. repeat split; assumption.
Defined.

(** The line [calc add 1 2 r]. *)
Lemma instruction_of_tokens_witness :
  let sup := {| text := [line "calc add 1 2 r"]; pointer := 0 |} in
  instruction sup = (Some ("calc", ["add"; "1"; "2"; "r"]), bump sup).
Proof.
  intros sup.
  apply (instruction_of_tokens sup "calc" ["add"; "1"; "2"; "r"]);
    [reflexivity|discriminate|reflexivity].
Defined.

(** [call x] under [nInput], the terminal holding [abc], [7], [more]. *)
Lemma nInput_reads_to_first_number_witness :
  let rt := after 2 ["SETA-SOC 1.0"; "set numeric x 0"; "load nInput";
                     "call x"] ["abc"; "7"; "more"] in
  exists rt',
    com_call ["x"] rt = Done rt'
    /\ stdin rt' = ["more"]
    /\ stdout rt' = [OutText (prompt [])]
    /\ namespace rt' !! "x" =
         Some {| var_name := "x"; var_type := VARIABLE_NUMERIC;
                 var_value := VInt 7 |}.
Proof.
  intros rt.
  destruct (nInput_reads_to_first_number rt "x" []
              {| var_name := "x"; var_type := VARIABLE_NUMERIC;
                 var_value := VInt 0 |} ["abc"]) as [Hgood _];
    try reflexivity; [repeat constructor|].
  destruct (Hgood "7" ["more"] (VInt 7) eq_refl eq_refl)
    as (rt' & Hc & Hi & Ho & Hn & _).
  exists rt'. repeat split; assumption.
Defined.

(** [x] and [y] holding 6 and 3, and the operation [div]. *)
Lemma calc_agrees_with_Operation_witness :
  let rt := after 2 ["SETA-SOC 1.0"; "set numeric x 6"; "set numeric y 3";
                     "calc div x y r"] [] in
  let vx := {| var_name := "x"; var_type := VARIABLE_NUMERIC;
               var_value := VInt 6 |} in
  let vy := {| var_name := "y"; var_type := VARIABLE_NUMERIC;
               var_value := VInt 3 |} in
  Operation_div vx vy rt = (Returns two, rt)
  /\ exists rt', com_calc ["div"; "x"; "y"; "r"] rt = Done rt'
                 /\ ams rt' = two.
Proof.
  intros rt vx vy.
  assert (E : Operation_div vx vy rt = (Returns two, rt)) by reflexivity.
  pose proof (calc_agrees_with_Operation rt "div" Operation_div "x" "y" "r"
                vx vy eq_refl eq_refl eq_refl eq_refl eq_refl eq_refl eq_refl
                eq_refl eq_refl eq_refl eq_refl eq_refl eq_refl) as H.
  rewrite E in H. destruct H as [_ H].
  split; [exact E|]. eexists. split; [exact H|reflexivity].
Defined.

(** [calc div 1 0 r] followed by a [set] that is never executed. *)
Lemma halts_after_diagnostic_witness :
  let rt := start ["SETA-SOC 1.0"; "calc div 1 0 r"; "set numeric x 5"] in
  let rt' := advance (report "MathException" rt) in
  cycle rt = Next rt'
  /\ current_code rt' = Some ("set", ["numeric"; "x"; "5"])
  /\ cycle rt' = Exit rt'.
Proof.
  intros rt rt'.
  assert (Hc : cycle rt = Next rt') by reflexivity.
  assert (Hne : errors rt' <> errors rt) by discriminate.
  destruct (halts_after_diagnostic rt rt' Hc Hne) as (_ & _ & Hx & _).
  split; [exact Hc|]. split; [reflexivity|exact Hx].
Defined.

(** No file at the path. *)
Lemma unreadable_source_stops_the_run_witness :
  let rt := Seta_new Missing SETA_SOC [] in
  run rt = Some (Exited rt)
  /\ errors rt = [{| clsname := "RunningException"; lineno := 0;
                     code := None |}].
Proof.
  intros rt.
  destruct (unreadable_source_stops_the_run Missing SETA_SOC []
              (or_introl eq_refl)) as (He & _ & _ & _ & Hr & _).
  split; assumption.
Defined.

End MoreExamples.

(** *** The terminal *)

Section Terminal.
Context {T : PyTypes} {P : Python}.

Implicit Types (rt : SetaRuntime) (args : list string) (com : string).
























End Terminal.

(** *** A whole program *)


Section Program.
Context {T : PyTypes} {P : Python}.

Implicit Types (rt : SetaRuntime) (args : list string) (com : string).




End Program.

Section ProgramExample.
Import Exact.
#[local] Existing Instances Exact.types Exact.python.


End ProgramExample.
